(** * insta-captions: the job orchestration backend and the ASR fallback stage

    A shallow embedding of [backend/main.py] (the job registry, the HTTP
    handlers and the background executor [process_urls]), of
    [scrape_subs.py] ([run_batch]) and of [fill_gaps.py]
    ([ensure_transcript], [main]), followed by the properties of the
    orchestration subsystem.

    Conventions of the embedding.
    - A Python [str] is a [string] whose characters are the code points
      below 256; [str.split] and [str.strip] cut at the characters for which
      [str.isspace] holds, among them U+0085 and U+00A0. The patterns of
      [analyze_content.py] are read on ASCII text.
    - The [progress] field is a binary64 float, as in Python.
    - The process state (the [jobs] dict, the file system, the working
      directory) is threaded through a state-and-exception monad; a raised
      exception keeps the state reached so far, as in Python.
    - The file system is a flat store from paths to nodes. Creating,
      overwriting and removing an entry succeed; reading an absent entry
      raises. What the outside world decides (the temporary directory's name,
      the clock, module imports, yt-dlp, the Whisper model) is a field of the
      [world] record and may raise. *)

From Stdlib Require Import ZArith Ascii String List Floats.PrimFloat Floats.FloatOps Floats.SpecFloat.
From stdpp Require Import gmap strings list fin_maps pretty.

Set Warnings "-inexact-float,-register-all".
Open Scope string_scope.

(** ** Python strings *)

Module PyStr.

(** [str.isspace] on the code points below 256: U+0009 to U+000D, U+001C to
    U+0020, U+0085 and U+00A0. *)
Definition isspace (c : ascii) : bool :=
  let n := nat_of_ascii c in
  ((9 <=? n)%nat && (n <=? 13)%nat) || ((28 <=? n)%nat && (n <=? 32)%nat) ||
  (n =? 133)%nat || (n =? 160)%nat.

(** [s.lstrip()], [s.rstrip()], [s.strip()]. *)
Fixpoint lstrip (s : string) : string :=
  match s with
  | String c s' => if isspace c then lstrip s' else s
  | EmptyString => EmptyString
  end.

Fixpoint rstrip (s : string) : string :=
  match s with
  | String c s' =>
      match rstrip s' with
      | EmptyString => if isspace c then EmptyString else String c EmptyString
      | r => String c r
      end
  | EmptyString => EmptyString
  end.

Definition strip (s : string) : string := rstrip (lstrip s).

(** [s.rstrip(chars)] for a single character [ch]. *)
Fixpoint rstrip_char (ch : ascii) (s : string) : string :=
  match s with
  | String c s' =>
      match rstrip_char ch s' with
      | EmptyString => if Ascii.eqb c ch then EmptyString else String c EmptyString
      | r => String c r
      end
  | EmptyString => EmptyString
  end.

(** [s.split()]: the maximal runs of non-whitespace characters, in order.
    [tok] is the run being read, reversed. *)
Fixpoint split_go (tok : list ascii) (s : string) : list string :=
  match s with
  | EmptyString =>
      match tok with
      | [] => []
      | _ => [string_of_list_ascii (rev tok)]
      end
  | String c s' =>
      if isspace c then
        match tok with
        | [] => split_go [] s'
        | _ => string_of_list_ascii (rev tok) :: split_go [] s'
        end
      else split_go (c :: tok) s'
  end.

Definition split (s : string) : list string := split_go [] s.

(** [s.split(sep)] for a single character [sep]: never empty. *)
Fixpoint split_on_go (sep : ascii) (tok : list ascii) (s : string) : list string :=
  match s with
  | EmptyString => [string_of_list_ascii (rev tok)]
  | String c s' =>
      if Ascii.eqb c sep then string_of_list_ascii (rev tok) :: split_on_go sep [] s'
      else split_on_go sep (c :: tok) s'
  end.

Definition split_on (sep : ascii) (s : string) : list string := split_on_go sep [] s.

(** [l[-1]] of a list that [split_on] returned. *)
Definition last_item (l : list string) : string := List.last l "".

Definition startswith (p s : string) : bool := String.prefix p s.

Definition endswith (p s : string) : bool :=
  let lp := String.length p in
  let ls := String.length s in
  (lp <=? ls)%nat && String.eqb (String.substring (ls - lp) lp s) p.

(** The lines a text file yields when iterated, line ends kept. The file is
    opened in text mode, so "\r\n" and a lone "\r" read as "\n". *)
Definition LF : ascii := ascii_of_nat 10.
Definition CR : ascii := ascii_of_nat 13.

Fixpoint universal_newlines (s : string) : string :=
  match s with
  | String c s' =>
      if Ascii.eqb c CR then
        match s' with
        | String c' s'' =>
            if Ascii.eqb c' LF then String LF (universal_newlines s'')
            else String LF (universal_newlines s')
        | EmptyString => String LF EmptyString
        end
      else String c (universal_newlines s')
  | EmptyString => EmptyString
  end.

Fixpoint lines_go (cur : list ascii) (s : string) : list string :=
  match s with
  | EmptyString =>
      match cur with
      | [] => []
      | _ => [string_of_list_ascii (rev cur)]
      end
  | String c s' =>
      if Ascii.eqb c LF then string_of_list_ascii (rev (c :: cur)) :: lines_go [] s'
      else lines_go (c :: cur) s'
  end.

Definition readlines (content : string) : list string :=
  lines_go [] (universal_newlines content).

(** [str(n)] and the format [{n:02d}] of an integer. *)
Definition str_Z (n : Z) : string := pretty n.

Definition fmt_02d (n : Z) : string :=
  let s := str_Z n in
  if (String.length s <? 2)%nat then "0" ++ s else s.

End PyStr.

(** ** Exceptions and the state-and-exception monad *)

(** The subclasses of [Exception] that the code or its libraries raise here;
    [exn_str] is [str(e)]. *)
Inductive exc_class :=
  | KeyError | FileNotFoundError | IsADirectoryError | ValueError
  | OverflowError | CalledProcessError | OtherError.

Record exn := Exn { exn_class : exc_class; exn_str : string }.

Inductive result (A : Type) :=
  | Ok (a : A)
  | Raise (e : exn).
Arguments Ok {A} a.
Arguments Raise {A} e.

(** A computation over a state [St]: it returns or raises, and in both cases
    leaves the state it reached. *)
Definition SE (St A : Type) : Type := St → result A * St.

Definition se_ret {St A} (a : A) : SE St A := λ σ, (Ok a, σ).

Definition se_bind {St A B} (m : SE St A) (k : A → SE St B) : SE St B :=
  λ σ, match m σ with
       | (Ok a, σ1) => k a σ1
       | (Raise e, σ1) => (Raise e, σ1)
       end.

#[global] Instance se_mret St : MRet (SE St) := @se_ret St.
#[global] Instance se_mbind St : MBind (SE St) := λ A B k m, se_bind m k.

Definition raise {St A} (e : exn) : SE St A := λ σ, (Raise e, σ).
Definition get {St} : SE St St := λ σ, (Ok σ, σ).
Definition modify {St} (f : St → St) : SE St unit := λ σ, (Ok tt, f σ).

(** [try: m  except Exception as e: h e]. *)
Definition try_except {St A} (m : SE St A) (h : exn → SE St A) : SE St A :=
  λ σ, match m σ with
       | (Ok a, σ1) => (Ok a, σ1)
       | (Raise e, σ1) => h e σ1
       end.

(** [try: m  finally: fin]: [fin] runs on both exits; an exception of [fin]
    replaces the outcome of [m]. *)
Definition try_finally {St A} (m : SE St A) (fin : SE St unit) : SE St A :=
  λ σ, match m σ with
       | (r, σ1) =>
           match fin σ1 with
           | (Ok _, σ2) => (r, σ2)
           | (Raise e, σ2) => (Raise e, σ2)
           end
       end.

(** [for x in l: body x]. *)
Fixpoint for_each {St A} (l : list A) (body : A → SE St unit) : SE St unit :=
  match l with
  | [] => mret tt
  | x :: l' => body x;; for_each l' body
  end.

(** Running a computation on a component of a larger state. *)
Definition zoom {St T A} (proj : T → St) (inj : St → T → T) (m : SE St A) : SE T A :=
  λ τ, match m (proj τ) with
       | (r, σ1) => (r, inj σ1 τ)
       end.

(** ** The file system and the outside world *)

Inductive content :=
  | Text (s : string)
  | Archive (entries : list (string * content)).

Inductive node :=
  | File (c : content)
  | Dir.

Record fsstate := FsState {
  files : gmap string node;
  cwd : string
}.

Definition set_files (f : gmap string node → gmap string node) (σ : fsstate) : fsstate :=
  {| files := f (files σ); cwd := cwd σ |}.

(** The result of [model.transcribe]. *)
Record segment := Segment {
  seg_start : float;
  seg_end : float;
  seg_text : string
}.

Record whisper_result := WhisperResult {
  res_text : string;
  res_segments : list segment
}.

Record world := World {
  (** [tempfile.gettempdir()], the random part of the name [mkdtemp] picks,
      and the error it raises when it cannot create the directory *)
  tempdir : string;
  mkdtemp_random : string;
  mkdtemp_error : option exn;
  (** [datetime.now().isoformat()] *)
  now_isoformat : string;
  (** [str(uuid.uuid4())] *)
  uuid4 : string;
  (** executing a module's top level on import *)
  import_module : string → fsstate → option exn * gmap string node;
  (** [YoutubeDL(YDL_OPTS).download(urls)] *)
  ydl_download : list string → fsstate → option exn * gmap string node;
  (** [subprocess.run(argv, check=True, ...)] *)
  subprocess_run : list string → fsstate → option exn * gmap string node;
  (** [MODEL.transcribe(path, language="en", fp16=False)] *)
  transcribe : string → fsstate → result whisper_result
}.

Abbreviation IO := (SE fsstate).

(** A call into the outside world that returns nothing: it sees the file
    system and the working directory, and leaves files behind. *)
Definition external (f : fsstate → option exn * gmap string node) : IO unit :=
  λ σ, match f σ with
       | (None, m) => (Ok tt, set_files (λ _, m) σ)
       | (Some e, m) => (Raise e, set_files (λ _, m) σ)
       end.

(** A relative path is read from the working directory. *)
Definition resolve (σ : fsstate) (p : string) : string :=
  if PyStr.startswith "/" p then p else cwd σ ++ "/" ++ p.

(** [os.path.exists(p)], [Path(p).exists()]. *)
Definition path_exists (p : string) : IO bool :=
  λ σ, (Ok (bool_decide (is_Some (files σ !! resolve σ p))), σ).

Definition getcwd : IO string := λ σ, (Ok (cwd σ), σ).

(** [os.chdir(p)]. *)
Definition chdir (p : string) : IO unit :=
  λ σ, match files σ !! resolve σ p with
       | Some Dir => (Ok tt, {| files := files σ; cwd := resolve σ p |})
       | _ => (Raise (Exn FileNotFoundError p), σ)
       end.

(** [os.makedirs(p, exist_ok=True)]. *)
Definition makedirs (p : string) : IO unit :=
  λ σ, (Ok tt, set_files (λ m, match m !! resolve σ p with
                               | Some Dir => m
                               | _ => <[resolve σ p := Dir]> m
                               end) σ).

(** [open(p, "w")]: the file is created or truncated. The store is flat and
    the parent directory is not looked at: a property that needs the file to
    be created names the directory in a hypothesis. *)
Definition open_w (p : string) : IO unit :=
  λ σ, (Ok tt, set_files (<[resolve σ p := File (Text "")]>) σ).

(** [f.write(s)] on the file opened at [p]. *)
Definition write (p s : string) : IO unit :=
  λ σ, (Ok tt, set_files (λ m, match m !! resolve σ p with
                               | Some (File (Text t)) => <[resolve σ p := File (Text (t ++ s))]> m
                               | _ => <[resolve σ p := File (Text s)]> m
                               end) σ).

(** [open(p).read()] in text mode. *)
Definition read_text (p : string) : IO string :=
  λ σ, match files σ !! resolve σ p with
       | Some (File (Text t)) => (Ok t, σ)
       | Some (File (Archive _)) => (Raise (Exn ValueError p), σ)
       | Some Dir => (Raise (Exn IsADirectoryError p), σ)
       | None => (Raise (Exn FileNotFoundError p), σ)
       end.

(** [Path(p).unlink(missing_ok=True)]. *)
Definition unlink_missing_ok (p : string) : IO unit :=
  λ σ, (Ok tt, set_files (delete (resolve σ p)) σ).

(** [q] is [p] or lies below it. *)
Definition under (p q : string) : bool :=
  String.eqb q p || PyStr.startswith (p ++ "/") q.

(** [shutil.rmtree(p)]. *)
Definition rmtree (p : string) : IO unit :=
  λ σ, (Ok tt, set_files (filter (λ kv, under (resolve σ p) kv.1 = false)) σ).

(** [list(Path(d).glob("*.txt"))]: the entries of directory [d] whose name
    ends in ".txt"; nothing when [d] is not a directory. *)
Definition is_txt_child (d q : string) : bool :=
  PyStr.startswith (d ++ "/") q &&
  (let name := String.substring (String.length d + 1) (String.length q) q in
   PyStr.endswith ".txt" name &&
   forallb (λ c, negb (Ascii.eqb c "/")) (list_ascii_of_string name)).

Definition txt_entries (d : string) (σ : fsstate) : list string :=
  match files σ !! resolve σ d with
  | Some Dir => List.filter (is_txt_child (resolve σ d)) (map_to_list (files σ)).*1
  | _ => []
  end.

Definition glob_txt (d : string) : IO (list string) :=
  λ σ, (Ok (txt_entries d σ), σ).

(** [tempfile.mkdtemp(prefix=prefix)]. *)
Definition mkdtemp (W : world) (prefix : string) : IO string :=
  λ σ, match mkdtemp_error W with
       | Some e => (Raise e, σ)
       | None =>
           let p := tempdir W ++ "/" ++ prefix ++ mkdtemp_random W in
           (Ok p, set_files (<[p := Dir]>) σ)
       end.

(** [int(x)] of a float: truncation toward zero. *)
Definition py_int (x : float) : result Z :=
  match Prim2SF x with
  | S754_zero _ => Ok 0%Z
  | S754_infinity _ => Raise (Exn OverflowError "cannot convert float infinity to integer")
  | S754_nan => Raise (Exn ValueError "cannot convert float NaN to integer")
  | S754_finite s m e =>
      let v := (if (0 <=? e)%Z then Z.pos m * 2 ^ e else Z.pos m / 2 ^ (- e))%Z in
      Ok (if s then (- v)%Z else v)
  end.

Definition lift_result {St A} (r : result A) : SE St A := λ σ, (r, σ).

Definition nl : string := String PyStr.LF "".

Definition nonempty (s : string) : bool :=
  match s with
  | EmptyString => false
  | _ => true
  end.

(** [[u.strip() for u in f if u.strip() and not u.startswith('#')]], the
    comprehension both stages read the URL list with. *)
Definition url_lines (text : string) : list string :=
  map PyStr.strip
    (List.filter (λ u, nonempty (PyStr.strip u) && negb (PyStr.startswith "#" u))
       (PyStr.readlines text)).

(** ** scrape_subs.py *)

Module scrape_subs.

(** [run_batch(url_file)]. *)
Definition run_batch (W : world) (url_file : string) : IO unit :=
  text ← read_text url_file;
  let urls := url_lines text in
  external (ydl_download W urls).

End scrape_subs.

(** ** fill_gaps.py *)

Module fill_gaps.

Definition SUB_DIR : string := "subs".
Definition TMP_DIR : string := "tmp".

(** [url.rstrip("/").split("/")[-1]]. *)
Definition short_of (url : string) : string :=
  PyStr.last_item (PyStr.split_on "/" (PyStr.rstrip_char "/" url)).

(** [SUB_DIR / f"{short}.txt"] and [TMP_DIR / f"{short}.m4a"]. *)
Definition txt_path_of (url : string) : string := SUB_DIR ++ "/" ++ short_of url ++ ".txt".
Definition audio_of (url : string) : string := TMP_DIR ++ "/" ++ short_of url ++ ".m4a".

(** One iteration of the loop over [result["segments"]]. *)
Definition write_segment (txt_path : string) (seg : segment) : IO unit :=
  start_time ← lift_result (py_int (seg_start seg));
  end_time ← lift_result (py_int (seg_end seg));
  let text := PyStr.strip (seg_text seg) in
  let start_minutes := (start_time `div` 60)%Z in
  let start_seconds := (start_time `mod` 60)%Z in
  let end_minutes := (end_time `div` 60)%Z in
  let end_seconds := (end_time `mod` 60)%Z in
  write txt_path
    ("[" ++ PyStr.fmt_02d start_minutes ++ ":" ++ PyStr.fmt_02d start_seconds ++ "-" ++
     PyStr.fmt_02d end_minutes ++ ":" ++ PyStr.fmt_02d end_seconds ++ "] " ++ text ++ nl).

(** The body of the second [try] of [ensure_transcript]. *)
Definition transcribe_and_write (W : world) (url txt_path audio : string) : IO unit :=
  res ← (λ σ, (transcribe W audio σ, σ));
  let full_text := PyStr.strip (res_text res) in
  open_w txt_path;;
  write txt_path ("URL: " ++ url ++ nl);;
  write txt_path ("Transcribed: " ++ full_text ++ nl ++ nl);;
  write txt_path ("=== SEGMENTED TRANSCRIPT ===" ++ nl);;
  for_each (res_segments res) (write_segment txt_path).

(** [try: ... except Exception: print(...) finally: audio.unlink(missing_ok=True)]. *)
Definition transcription_step (W : world) (url txt_path audio : string) : IO unit :=
  try_finally
    (try_except (transcribe_and_write W url txt_path audio) (λ _, mret tt))
    (unlink_missing_ok audio).

(** The download: [true] when the function goes on to the transcription,
    [false] when it returns from the [except CalledProcessError] clause. Any
    other exception of [subprocess.run] is not caught. *)
Definition download_audio (W : world) (url audio : string) : IO bool :=
  have_audio ← path_exists audio;
  if have_audio : bool then mret true
  else
    try_except
      (external (subprocess_run W ["yt-dlp"; "-f"; "ba"; "-o"; audio; url]);; mret true)
      (λ e, match exn_class e with
            | CalledProcessError => mret false
            | _ => raise e
            end).

(** [ensure_transcript(url)]. *)
Definition ensure_transcript (W : world) (url : string) : IO unit :=
  let txt_path := txt_path_of url in
  have_txt ← path_exists txt_path;
  if have_txt : bool then mret tt
  else
    let audio := audio_of url in
    go_on ← download_audio W url audio;
    if go_on : bool then transcription_step W url txt_path audio
    else mret tt.

(** [main()]. *)
Definition main (W : world) : IO unit :=
  text ← read_text "reels.txt";
  let urls := url_lines text in
  for_each urls (ensure_transcript W).

End fill_gaps.

(** ** backend/main.py *)

(** A value of the [jobs] dict. [state] is one of "pending", "running",
    "completed", "failed". *)
Record Job := mkJob {
  job_id : string;
  state : string;
  progress : float;
  message : string;
  urls : list string;
  created_at : string;
  completed_at : option string;
  workspace : option string
}.

Definition with_state (v : string) (j : Job) : Job :=
  mkJob (job_id j) v (progress j) (message j) (urls j) (created_at j) (completed_at j) (workspace j).
Definition with_progress (v : float) (j : Job) : Job :=
  mkJob (job_id j) (state j) v (message j) (urls j) (created_at j) (completed_at j) (workspace j).
Definition with_message (v : string) (j : Job) : Job :=
  mkJob (job_id j) (state j) (progress j) v (urls j) (created_at j) (completed_at j) (workspace j).
Definition with_completed_at (v : option string) (j : Job) : Job :=
  mkJob (job_id j) (state j) (progress j) (message j) (urls j) (created_at j) v (workspace j).
Definition with_workspace (v : option string) (j : Job) : Job :=
  mkJob (job_id j) (state j) (progress j) (message j) (urls j) (created_at j) (completed_at j) v.

Inductive stage := Scrape | FillGaps.

(** What an observer of the process can see happen, in order: an assignment
    [jobs[id][field] = v] (with the record it leaves), and the start and the
    normal return of a pipeline stage. *)
Inductive event :=
  | EvSet (id field : string) (j : Job)
  | EvStageStart (s : stage)
  | EvStageEnd (s : stage).

(** The process: the [jobs] global, the tasks added to [BackgroundTasks] and
    not yet run, the file system, and the events so far. *)
Record proc := Proc {
  jobs : gmap string Job;
  background : list (string * list string);
  fs : fsstate;
  trace : list event
}.

Abbreviation M := (SE proc).

Definition lift_fs {A} (m : IO A) : M A :=
  zoom fs (λ s τ, Proc (jobs τ) (background τ) s (trace τ)) m.

Definition log (ev : event) : M unit :=
  modify (λ τ, Proc (jobs τ) (background τ) (fs τ) (trace τ ++ [ev])).

(** [jobs[id][field] = v], where [upd] stores [v] in the field: a [KeyError]
    when [id] is not a key of [jobs]. *)
Definition job_set (id field : string) (upd : Job → Job) : M unit :=
  λ τ, match jobs τ !! id with
       | Some j =>
           (Ok tt, Proc (<[id := upd j]> (jobs τ)) (background τ) (fs τ)
                        (trace τ ++ [EvSet id field (upd j)]))
       | None => (Raise (Exn KeyError ("'" ++ id ++ "'")), τ)
       end.

(** [await run_stage(workspace)]. *)
Definition await_stage (s : stage) (m : IO unit) : M unit :=
  log (EvStageStart s);;
  lift_fs m;;
  log (EvStageEnd s).

(** [run_scrape_subs(workspace)]. *)
Definition run_scrape_subs (W : world) (ws : string) : IO unit :=
  external (import_module W "scrape_subs");;
  original_cwd ← getcwd;
  chdir ws;;
  try_finally (scrape_subs.run_batch W "reels.txt") (chdir original_cwd).

(** [run_fill_gaps(workspace)]. *)
Definition run_fill_gaps (W : world) (ws : string) : IO unit :=
  external (import_module W "fill_gaps");;
  original_cwd ← getcwd;
  chdir ws;;
  try_finally (fill_gaps.main W) (chdir original_cwd).

(** The block that writes [reels.txt]. *)
Definition write_reels (p : string) (url_list : list string) : IO unit :=
  open_w p;;
  for_each url_list (λ url,
    for_each (PyStr.split url) (λ u,
      if nonempty (PyStr.strip u) then write p (PyStr.strip u ++ nl) else mret tt)).

(** [len(txt_files)] in the f-string. *)
Definition str_len {A} (l : list A) : string := PyStr.str_Z (Z.of_nat (length l)).

(** The [try] block of [process_urls]. *)
Definition process_urls_body (W : world) (id : string) (url_list : list string) : M unit :=
  job_set id "state" (with_state "running");;
  job_set id "message" (with_message "Setting up workspace...");;
  job_set id "progress" (with_progress 0.1);;
  ws ← lift_fs (mkdtemp W ("job_" ++ id ++ "_"));
  job_set id "workspace" (with_workspace (Some ws));;
  lift_fs (makedirs (ws ++ "/subs"));;
  lift_fs (makedirs (ws ++ "/tmp"));;
  lift_fs (write_reels (ws ++ "/reels.txt") url_list);;
  job_set id "message" (with_message "Extracting existing captions...");;
  job_set id "progress" (with_progress 0.3);;
  await_stage Scrape (run_scrape_subs W ws);;
  job_set id "message" (with_message "Processing with Whisper...");;
  job_set id "progress" (with_progress 0.6);;
  await_stage FillGaps (run_fill_gaps W ws);;
  job_set id "message" (with_message "Finalizing results...");;
  job_set id "progress" (with_progress 0.9);;
  txt_files ← lift_fs (glob_txt (ws ++ "/subs"));
  match txt_files with
  | [] =>
      job_set id "state" (with_state "failed");;
      job_set id "message" (with_message "No transcripts were generated")
  | _ =>
      job_set id "state" (with_state "completed");;
      job_set id "progress" (with_progress 1.0);;
      job_set id "message"
        (with_message ("Successfully processed " ++ str_len txt_files ++ " transcripts"));;
      job_set id "completed_at" (with_completed_at (Some (now_isoformat W)))
  end.

(** The [except Exception as e] clause of [process_urls]. *)
Definition process_urls_handler (id : string) (e : exn) : M unit :=
  job_set id "state" (with_state "failed");;
  job_set id "message" (with_message ("Error: " ++ exn_str e));;
  job_set id "progress" (with_progress 0.0).

(** [process_urls(job_id, urls)]. *)
Definition process_urls (W : world) (id : string) (url_list : list string) : M unit :=
  try_except (process_urls_body W id url_list) (process_urls_handler id).

(** The status code of an [HTTPException] is kept with its detail. *)
Inductive response :=
  | HTTPException (status_code : nat) (detail : string)
  | JobResponse (id msg : string)
  | JobStatus (id st : string) (prog : float) (msg created : string) (completed : option string)
  | FileResponse (path media_type filename : string)
  | JsonMessage (msg : string)
  | JsonJobs (js : list Job).

(** [submit_urls(submission, background_tasks)]. *)
Definition submit_urls (W : world) (submission_urls : list string) : M response :=
  match submission_urls with
  | [] => mret (HTTPException 400 "No URLs provided")
  | _ =>
      let id := uuid4 W in
      modify (λ τ,
        Proc (<[id := mkJob id "pending" 0.0 "Job created" submission_urls
                        (now_isoformat W) None None]> (jobs τ))
             (background τ ++ [(id, submission_urls)]) (fs τ) (trace τ));;
      mret (JobResponse id "Job submitted successfully")
  end.

(** [get_job_status(job_id)]. *)
Definition get_job_status (id : string) : M response :=
  τ ← get;
  match jobs τ !! id with
  | None => mret (HTTPException 404 "Job not found")
  | Some job =>
      mret (JobStatus (job_id job) (state job) (progress job) (message job)
              (created_at job) (completed_at job))
  end.

(** Truth value of [workspace]: [None] and the empty string are false. *)
Definition truthy (w : option string) : bool :=
  match w with
  | Some s => nonempty s
  | None => false
  end.

(** [p.rglob('*')] restricted to files: every file below [p], with its path
    relative to [p]. *)
Definition rglob_files (source_dir : string) (m : gmap string node) : list (string * content) :=
  match m !! source_dir with
  | Some Dir =>
      omap (λ kv, match kv.2 with
                  | File c =>
                      if PyStr.startswith (source_dir ++ "/") kv.1
                      then Some (String.substring (String.length source_dir + 1)
                                   (String.length kv.1) kv.1, c)
                      else None
                  | Dir => None
                  end) (map_to_list m)
  | _ => []
  end.

(** [create_zip_file(source_dir, zip_path)]: [ZipFile(zip_path, 'w')] creates
    the archive, the loop fills it, and leaving the [with] block writes it. *)
Definition create_zip_file (source_dir zip_path : string) : IO unit :=
  modify (λ σ, set_files (<[resolve σ zip_path := File (Archive [])]>) σ);;
  σ ← get;
  let entries := rglob_files (resolve σ source_dir) (files σ) in
  modify (set_files (<[resolve σ zip_path := File (Archive entries)]>)).

(** [workspace and os.path.exists(workspace)] as a truth value. *)
Definition workspace_on_disk (w : option string) : M bool :=
  if truthy w then lift_fs (path_exists (default "" w)) else mret false.

(** [download_result(job_id)]. *)
Definition download_result (id : string) : M response :=
  τ ← get;
  match jobs τ !! id with
  | None => mret (HTTPException 404 "Job not found")
  | Some job =>
      if negb (String.eqb (state job) "completed")
      then mret (HTTPException 400 "Job not completed yet")
      else
        let w := workspace job in
        on_disk ← workspace_on_disk w;
        if negb on_disk
        then mret (HTTPException 404 "Results not found")
        else
          let zip_path := default "" w ++ "/transcripts.zip" in
          lift_fs (create_zip_file (default "" w ++ "/subs") zip_path);;
          zip_on_disk ← lift_fs (path_exists zip_path);
          if negb zip_on_disk
          then mret (HTTPException 404 "ZIP file not found")
          else mret (FileResponse zip_path "application/zip" ("transcripts_" ++ id ++ ".zip"))
  end.

(** [list_jobs()]. *)
Definition list_jobs : M response :=
  τ ← get;
  mret (JsonJobs (map_to_list (jobs τ)).*2).

(** [delete_job(job_id)]. *)
Definition delete_job (id : string) : M response :=
  τ ← get;
  match jobs τ !! id with
  | None => mret (HTTPException 404 "Job not found")
  | Some job =>
      let w := workspace job in
      on_disk ← workspace_on_disk w;
      (if on_disk : bool then lift_fs (rmtree (default "" w)) else mret tt);;
      modify (λ τ, Proc (delete id (jobs τ)) (background τ) (fs τ) (trace τ));;
      mret (JsonMessage "Job deleted successfully")
  end.

(** Running the next task of [BackgroundTasks], after its response was sent. *)
Definition dispatch (W : world) : M unit :=
  τ ← get;
  match background τ with
  | [] => mret tt
  | (id, url_list) :: rest =>
      modify (λ τ, Proc (jobs τ) rest (fs τ) (trace τ));;
      process_urls W id url_list
  end.

(** ** run_all.py *)

Module run_all.

(** How [main] ends: [sys.exit(code)], or by reaching its last line. *)
Inductive outcome :=
  | Exited (code : nat)
  | Returned.

(** One [try] block of [check_dependencies]: the probe of a tool, which is
    added to [missing] when the probe raises [CalledProcessError] or
    [FileNotFoundError]. *)
Definition probe (W : world) (argv : list string) (tool : string) (missing : list string)
    : IO (list string) :=
  try_except
    (external (subprocess_run W argv);; mret missing)
    (λ e, match exn_class e with
          | CalledProcessError | FileNotFoundError => mret (missing ++ [tool])%list
          | _ => raise e
          end).

(** [check_dependencies()]. *)
Definition check_dependencies (W : world) : IO bool :=
  missing ← probe W ["ffmpeg"; "-version"] "ffmpeg" [];
  missing ← probe W ["yt-dlp"; "--version"] "yt-dlp" missing;
  match missing with
  | [] => mret true
  | _ => mret false
  end.

(** Step 1 and step 2 of [main]: the import and the call, inside [try]. *)
Definition step1 (W : world) : IO unit :=
  external (import_module W "scrape_subs");;
  scrape_subs.run_batch W "reels.txt".

Definition step2 (W : world) : IO unit :=
  external (import_module W "fill_gaps");;
  fill_gaps.main W.

(** [main()]. *)
Definition main (W : world) : IO outcome :=
  deps ← check_dependencies W;
  if negb deps then mret (Exited 1)
  else
    have_reels ← path_exists "reels.txt";
    if negb have_reels then mret (Exited 1)
    else
      ok1 ← try_except (step1 W;; mret true) (λ _, mret false);
      if negb ok1 then mret (Exited 1)
      else
        ok2 ← try_except (step2 W;; mret true) (λ _, mret false);
        if negb ok2 then mret (Exited 1)
        else
          txt_files ← glob_txt "subs";
          mret Returned.

End run_all.

(** ** analyze_content.py *)

Module analyze_content.

(** The classes of the patterns, on ASCII text: [[a-z]], [\w], and the
    characters that [[^.!?]] excludes. *)
Definition is_lower (c : ascii) : bool :=
  let n := nat_of_ascii c in (97 <=? n)%nat && (n <=? 122)%nat.

Definition is_upper (c : ascii) : bool :=
  let n := nat_of_ascii c in (65 <=? n)%nat && (n <=? 90)%nat.

Definition is_digit (c : ascii) : bool :=
  let n := nat_of_ascii c in (48 <=? n)%nat && (n <=? 57)%nat.

Definition is_word (c : ascii) : bool :=
  is_lower c || is_upper c || is_digit c || Ascii.eqb c "_".

Definition is_terminator (c : ascii) : bool :=
  Ascii.eqb c "." || Ascii.eqb c "!" || Ascii.eqb c "?".

(** [text.lower()]. *)
Definition lower_char (c : ascii) : ascii :=
  if is_upper c then ascii_of_nat (nat_of_ascii c + 32) else c.

Fixpoint lower (s : string) : string :=
  match s with
  | String c s' => String (lower_char c) (lower s')
  | EmptyString => EmptyString
  end.

(** [re.findall(r'[^.!?]*\?', text)]: a match runs from the character after
    the last '.', '!' or '?' up to the next '?', and there is none where the
    next of the three is a '.' or a '!'. [cur] is the run being read,
    reversed. *)
Fixpoint findall_questions (cur : list ascii) (s : string) : list string :=
  match s with
  | EmptyString => []
  | String c s' =>
      if Ascii.eqb c "?" then string_of_list_ascii (rev (c :: cur)) :: findall_questions [] s'
      else if is_terminator c then findall_questions [] s'
      else findall_questions (c :: cur) s'
  end.

(** [extract_questions(text)]. *)
Definition extract_questions (text : string) : list string :=
  List.filter (λ question, (10 <? String.length question)%nat)
    (map PyStr.strip (findall_questions [] text)).

(** The maximal runs of [\w] characters of a text, in order. *)
Fixpoint word_runs (run : list ascii) (s : string) : list string :=
  match s with
  | EmptyString =>
      match run with
      | [] => []
      | _ => [string_of_list_ascii (rev run)]
      end
  | String c s' =>
      if is_word c then word_runs (c :: run) s'
      else
        match run with
        | [] => word_runs [] s'
        | _ => string_of_list_ascii (rev run) :: word_runs [] s'
        end
  end.

(** [re.findall(r'\b[a-z]{3,}\b', s)]: with a word boundary on both sides,
    a match is a whole run of [\w] characters, and it is one when the run has
    three characters or more, all of them in [[a-z]]. *)
Definition findall_words (s : string) : list string :=
  List.filter (λ w, (3 <=? String.length w)%nat && forallb is_lower (list_ascii_of_string w))
    (word_runs [] s).

Definition stop_words : list string :=
  [ "the"; "and"; "or"; "but"; "in"; "on"; "at"; "to"; "for"; "of"; "with";
    "by"; "is"; "are"; "was"; "were"; "be"; "been"; "have"; "has"; "had";
    "do"; "does"; "did"; "will"; "would"; "could"; "should"; "may"; "might";
    "this"; "that"; "these"; "those"; "i"; "you"; "he"; "she"; "it"; "we";
    "they"; "me"; "him"; "her"; "us"; "them"; "my"; "your"; "his"; "her";
    "its"; "our"; "their"; "mine"; "yours"; "hers"; "ours"; "theirs" ].

(** [extract_keywords(text)]. *)
Definition extract_keywords (text : string) : list string :=
  let text_lower := lower text in
  let words := findall_words text_lower in
  List.filter (λ word, negb (existsb (String.eqb word) stop_words)) words.

(** A [Counter]: its keys in the order of their first insertion, with their
    counts. *)
Definition counter : Type := list (string * nat).

(** [c.most_common(n)]: the [n] first entries when sorted by decreasing
    count, entries of equal count staying in their order. *)
Fixpoint insert_by_count (x : string * nat) (l : counter) : counter :=
  match l with
  | [] => [x]
  | y :: l' => if (x.2 <? y.2)%nat then y :: insert_by_count x l' else x :: l
  end.

Definition sorted_by_count (c : counter) : counter := fold_right insert_by_count [] c.

Definition most_common (n : nat) (c : counter) : counter := take n (sorted_by_count c).

Definition topic_ideas (topic : string) : list string :=
  [ "Create a comprehensive " ++ topic ++ " guide";
    "Share your " ++ topic ++ " journey/story";
    "Review different " ++ topic ++ " options" ].

Definition general_ideas : list string :=
  [ "Share behind-the-scenes content";
    "Create a 'day in the life' video";
    "Make a tutorial based on your expertise";
    "Share tips and tricks you've learned";
    "Create a 'before and after' comparison";
    "Make a reaction video to related content";
    "Share your personal story/experience";
    "Create a listicle (top 5, 10, etc.)";
    "Make a challenge or trend video";
    "Share your goals and progress updates" ].

(** The list [ideas] that [generate_content_ideas] builds. *)
Definition ideas (topic_counter question_counter keyword_counter : counter) : list string :=
  let top_topics := (most_common 3 topic_counter).*1 in
  let top_keywords := (most_common 5 keyword_counter).*1 in
  (concat (map topic_ideas top_topics) ++
   (match question_counter with
    | [] => []
    | _ => [ "Answer common questions in a Q&A format";
             "Create a FAQ video based on viewer questions" ]
    end ++
    (match top_keywords with
     | [] => []
     | _ => [ ("Create content around: " ++ String.concat ", " (take 3 top_keywords))%string ]
     end ++
     general_ideas)))%list.

(** [generate_content_ideas(...)]: the lines it prints. *)
Definition generate_content_ideas (topic_counter question_counter keyword_counter : counter)
    : list string :=
  imap (λ i idea, "   " ++ PyStr.str_Z (Z.of_nat (i + 1)) ++ ". " ++ idea)
    (take 10 (ideas topic_counter question_counter keyword_counter)).

End analyze_content.

(** ** Notions the properties are stated with *)

(** The file-system side of the [try] block of [process_urls], up to the
    return of the second stage: it returns the workspace when neither the
    set-up nor a stage raised. *)
Definition pipeline_stages (W : world) (id : string) (url_list : list string) : IO string :=
  ws ← mkdtemp W ("job_" ++ id ++ "_");
  makedirs (ws ++ "/subs");;
  makedirs (ws ++ "/tmp");;
  write_reels (ws ++ "/reels.txt") url_list;;
  run_scrape_subs W ws;;
  run_fill_gaps W ws;;
  mret ws.

(** The checkpoints of a run: the assignments to [progress] (with the state
    the job is in), the assignment to [workspace], and the stage boundaries. *)
Inductive mark :=
  | MProgress (st : string) (p : float)
  | MWorkspace
  | MStart (s : stage)
  | MEnd (s : stage).

Definition mark_of (ev : event) : option mark :=
  match ev with
  | EvSet _ field j =>
      if String.eqb field "progress" then Some (MProgress (state j) (progress j))
      else if String.eqb field "workspace" then Some MWorkspace
      else None
  | EvStageStart s => Some (MStart s)
  | EvStageEnd s => Some (MEnd s)
  end.

Definition marks_of (evs : list event) : list mark := omap mark_of evs.

Definition checkpoints : list mark :=
  [ MProgress "running" 0.1; MWorkspace;
    MProgress "running" 0.3; MStart Scrape; MEnd Scrape;
    MProgress "running" 0.6; MStart FillGaps; MEnd FillGaps;
    MProgress "running" 0.9 ].

(** The progress a poll can read after each assignment, while the job is
    pending or running. *)
Definition live (st : string) : bool := String.eqb st "pending" || String.eqb st "running".

Definition live_progress (evs : list event) : list float :=
  omap (λ ev, match ev with
              | EvSet _ _ j => if live (state j) then Some (progress j) else None
              | _ => None
              end) evs.

Fixpoint nondecreasing (l : list float) : bool :=
  match l with
  | a :: t => match t with
              | b :: _ => PrimFloat.leb a b && nondecreasing t
              | [] => true
              end
  | [] => true
  end.

(** The claim about the [urls] field read literally: the submitted strings
    split at whitespace. *)
Definition tokenized (submission_urls : list string) : list string :=
  concat (map PyStr.split submission_urls).

(** A world in which nothing fails and every reel is transcribed, one in
    which every audio download fails, and a process with an empty registry. *)
Definition sample_result : whisper_result :=
  WhisperResult " hello world " [Segment 0.0 61.7 " hello "; Segment 61.7 130.2 "world"].

Definition world_ok : world :=
  World "/tmp" "k3x" None "2024-05-01T10:00:00" "7f3c"
    (λ _ σ, (None, files σ)) (λ _ σ, (None, files σ)) (λ _ σ, (None, files σ))
    (λ _ _, Ok sample_result).

Definition world_no_audio : world :=
  World "/tmp" "k3x" None "2024-05-01T10:00:00" "7f3c"
    (λ _ σ, (None, files σ)) (λ _ σ, (None, files σ))
    (λ _ σ, (Some (Exn CalledProcessError "yt-dlp returned non-zero exit status 1"), files σ))
    (λ _ _, Ok sample_result).

Definition world_no_tempdir : world :=
  World "/tmp" "k3x" (Some (Exn OtherError "No space left on device")) "2024-05-01T10:00:00" "7f3c"
    (λ _ σ, (None, files σ)) (λ _ σ, (None, files σ)) (λ _ σ, (None, files σ))
    (λ _ _, Ok sample_result).

Definition proc0 : proc :=
  Proc ∅ [] (FsState {[ "/" := Dir; "/tmp" := Dir; "/app" := Dir ]} "/app") [].

Definition two_reels : list string :=
  ["https://instagram.com/reel/ABC123/"; "https://instagram.com/reel/XYZ789/"].

(** The registry after the two reels were submitted. *)
Definition submitted : proc := (submit_urls world_ok two_reels proc0).2.

(** The record [submit_urls] stores for the two reels. *)
Definition sample_job : Job :=
  mkJob "7f3c" "pending" 0.0 "Job created" two_reels "2024-05-01T10:00:00" None None.

(** The process after the executor ran on that job in [world_ok]. *)
Definition finished : proc := (dispatch world_ok submitted).2.

(** Two URLs pasted as one string. *)
Definition pasted : list string :=
  ["https://instagram.com/reel/ABC123/ https://instagram.com/reel/XYZ789/"].

(** A working directory prepared for the fallback stage. *)
Definition stage_dir : fsstate :=
  FsState {[ "/w" := Dir; "/w/subs" := Dir; "/w/tmp" := Dir;
             "/w/tmp/ABC123.m4a" := File (Text "audio") ]} "/w".

(** The text of a URL-list file with one line per token. *)
Definition reels_text (tokens : list string) : string :=
  fold_right (λ u acc, u ++ nl ++ acc) "" tokens.

(** A token of [str.split]: not empty, and free of whitespace. *)
Definition is_token (t : string) : Prop :=
  ∃ l, l ≠ [] ∧ Forall (λ c, PyStr.isspace c = false) l ∧ t = string_of_list_ascii l.

(** A computation keeps the working directory and the entry at [q], if any. *)
Definition keeps (q : string) {A} (m : IO A) : Prop :=
  ∀ σ, cwd (m σ).2 = cwd σ ∧
       (is_Some (files σ !! resolve σ q) → is_Some (files (m σ).2 !! resolve σ q)).

(** A computation leaves the working directory where it was. *)
Definition same_cwd {A} (m : IO A) : Prop := ∀ σ, cwd (m σ).2 = cwd σ.

(** Every character of the string is ASCII. *)
Definition ascii_only (s : string) : Prop :=
  Forall (λ c, (nat_of_ascii c < 128)%nat) (list_ascii_of_string s).

(** The prepared directory without the audio file, and a directory prepared
    for the command-line runner, with the URL list of the two reels. *)
Definition stage_dir_no_audio : fsstate :=
  FsState {[ "/w" := Dir; "/w/subs" := Dir; "/w/tmp" := Dir ]} "/w".

Definition runner_dir : fsstate :=
  FsState {[ "/w" := Dir; "/w/subs" := Dir; "/w/tmp" := Dir;
             "/w/reels.txt" := File (Text (reels_text two_reels)) ]} "/w".

(** ** Running the monad *)

Lemma bind_run {St A B} (m : SE St A) (k : A → SE St B) (σ : St) :
  (m ≫= k) σ = match m σ with
               | (Ok a, σ1) => k a σ1
               | (Raise e, σ1) => (Raise e, σ1)
               end.
Proof. reflexivity. Qed.

Lemma ret_run {St A} (a : A) (σ : St) : (mret a : SE St A) σ = (Ok a, σ).
Proof. reflexivity. Qed.

Lemma job_set_run id field upd J B F T j :
  J !! id = Some j →
  job_set id field upd (Proc J B F T) =
    (Ok tt, Proc (<[id := upd j]> J) B F (T ++ [EvSet id field (upd j)])).
Proof. intros H. unfold job_set. cbn [jobs background fs trace]. by rewrite H. Qed.

Lemma lift_fs_run {A} (m : IO A) J B F T :
  lift_fs m (Proc J B F T) = ((m F).1, Proc J B (m F).2 T).
Proof. unfold lift_fs, zoom. cbn [jobs background fs trace]. by destruct (m F). Qed.

Lemma await_stage_run s (m : IO unit) J B F T :
  await_stage s m (Proc J B F T) =
    match m F with
    | (Ok _, F1) => (Ok tt, Proc J B F1 (T ++ [EvStageStart s; EvStageEnd s]))
    | (Raise e, F1) => (Raise e, Proc J B F1 (T ++ [EvStageStart s]))
    end.
Proof.
  unfold await_stage, log, modify, lift_fs, zoom, mbind, se_mbind, se_bind.
  cbn [jobs background fs trace].
  destruct (m F) as [[[]|e] F1]; [|done].
  cbn [jobs background fs trace]. by rewrite <- (assoc_L (++)).
Qed.

(** One step of [process_urls]: a bind is opened, an assignment to the job is
    performed, a call on the file system or a stage is split into its two
    outcomes, and the list of transcripts into empty and non-empty. *)
Ltac exec_step :=
  first
    [ rewrite bind_run
    | erewrite job_set_run by (first [eassumption | apply lookup_insert_eq])
    | lazymatch goal with
      | |- context [lift_fs (glob_txt ?d) (Proc ?J ?B ?F ?T)] =>
          let Et := fresh "Et" in
          rewrite (lift_fs_run (glob_txt d) J B F T);
          unfold glob_txt; cbn [fst snd];
          destruct (txt_entries d F) eqn:Et
      end
    | lazymatch goal with
      | |- context [lift_fs ?m (Proc ?J ?B ?F ?T)] =>
          let r := fresh "r" in
          let F1 := fresh "F" in
          let E := fresh "E" in
          rewrite (lift_fs_run m J B F T);
          destruct (m F) as [r F1] eqn:E; cbn [fst snd]; destruct r
      end
    | lazymatch goal with
      | |- context [await_stage ?s ?m (Proc ?J ?B ?F ?T)] =>
          let r := fresh "r" in
          let F1 := fresh "F" in
          let E := fresh "E" in
          rewrite (await_stage_run s m J B F T);
          destruct (m F) as [r F1] eqn:E; destruct r as [[]|]
      end ];
  cbv beta iota.

Ltac exec :=
  unfold process_urls, try_except, process_urls_body, process_urls_handler;
  repeat exec_step.

(** The same calls, followed in a hypothesis about [pipeline_stages]. *)
Ltac follow H :=
  unfold pipeline_stages in H;
  repeat first
    [ rewrite bind_run in H
    | rewrite ret_run in H
    | match goal with
      | E : ?m ?F = _ |- _ =>
          tryif constr_eq E H then fail
          else lazymatch type of H with context [m F] => rewrite E in H end
      end ];
  cbv beta iota in H.

Lemma get_run {St} (σ : St) : (get : SE St St) σ = (Ok σ, σ).
Proof. reflexivity. Qed.

Lemma modify_run {St} (f : St → St) (σ : St) : modify f σ = (Ok tt, f σ).
Proof. reflexivity. Qed.

(** A handler, one call at a time. *)
Ltac handler_step :=
  first
    [ rewrite bind_run
    | rewrite get_run
    | rewrite ret_run
    | rewrite modify_run
    | rewrite lift_fs_run ];
  cbv beta iota; cbn [fst snd jobs background fs trace].

Lemma workspace_on_disk_run w J B F T :
  workspace_on_disk w (Proc J B F T) =
    (Ok (truthy w && bool_decide (is_Some (files F !! resolve F (default "" w)))), Proc J B F T).
Proof.
  unfold workspace_on_disk. destruct (truthy w); [|done].
  rewrite lift_fs_run. done.
Qed.

(** ** The executor *)

(** C1. When the set-up and both stages return without raising, the executor
    counts the .txt entries of the workspace's subs directory: with none the
    job ends failed with the message "No transcripts were generated"; with
    one or more it ends completed, with progress 1.0, completed_at the
    current time, and a message that gives the count. *)
Theorem terminal_resolution_counts_transcripts
    (W : world) (id : string) (url_list : list string) (τ : proc) (j0 : Job)
    (ws : string) (σ' : fsstate) :
  jobs τ !! id = Some j0 →
  pipeline_stages W id url_list (fs τ) = (Ok ws, σ') →
  let n := length (txt_entries (ws ++ "/subs") σ') in
  ∃ τ' j',
    process_urls W id url_list τ = (Ok tt, τ') ∧
    fs τ' = σ' ∧
    jobs τ' !! id = Some j' ∧
    (n = 0 → state j' = "failed" ∧ message j' = "No transcripts were generated") ∧
    ((1 ≤ n)%nat →
       state j' = "completed" ∧ progress j' = 1.0%float ∧
       completed_at j' = Some (now_isoformat W) ∧
       message j' = "Successfully processed " ++ PyStr.str_Z (Z.of_nat n) ++ " transcripts").
Proof.
  destruct τ as [J B F T]. cbn [jobs fs]. intros Hj Hp.
  exec; follow Hp; try discriminate Hp.
  all: injection Hp as <- <-; rewrite Et.
  all: eexists _, _; split; [reflexivity|]; cbn [jobs fs].
  all: split; [done|]; split; [apply lookup_insert_eq|]; cbn [length].
  - split; [done|lia].
  - split; [done|]. intros _. done.
Qed.

(** C2. Whatever is raised inside the [try] block of the executor (by the
    creation of the workspace, by a stage, or by any other call), the
    executor returns normally: the exception does not leave [process_urls].
    The job then is failed, with progress 0.0 and the message "Error: "
    followed by the error text. Every run ends in an assignment to the job's
    record. *)
Theorem executor_converts_exceptions
    (W : world) (id : string) (url_list : list string) (τ : proc) (j0 : Job) :
  jobs τ !! id = Some j0 →
  ∃ τ' j',
    process_urls W id url_list τ = (Ok tt, τ') ∧
    jobs τ' !! id = Some j' ∧
    (∃ (T : list event) field, trace τ' = (T ++ [EvSet id field j'])%list) ∧
    (∀ e τ1, process_urls_body W id url_list τ = (Raise e, τ1) →
       state j' = "failed" ∧ progress j' = 0.0%float ∧
       message j' = "Error: " ++ exn_str e).
Proof.
  destruct τ as [J B F T]. cbn [jobs]. intros Hj.
  exec.
  all: eexists _, _; split; [reflexivity|]; cbn [jobs trace].
  all: split; [apply lookup_insert_eq|].
  all: split; [by eexists _, _|].
  all: intros e' τ1 He; try discriminate He.
  all: injection He as <- _; done.
Qed.

Ltac pick_prefix k :=
  solve [ exists k; eexists; split; [reflexivity|]; split; [lia|]; auto ].

(** C3. The checkpoints of a run occur in the listed order: running with
    progress 0.1 first, then the workspace, then 0.3 before the scrape stage
    starts, 0.6 after it
    returned and before the fallback stage starts, 0.9 after that one
    returned. A run that raises stops at some point of this sequence (after
    the first checkpoint) and then only records the failure; a run that does
    not raise goes through all of it. The progress readable while the job is
    pending or running never decreases. *)
Theorem checkpoints_in_order
    (W : world) (id : string) (url_list : list string) (τ : proc) (j0 : Job) :
  jobs τ !! id = Some j0 →
  ∃ τ' (evs : list event),
    process_urls W id url_list τ = (Ok tt, τ') ∧
    trace τ' = (trace τ ++ evs)%list ∧
    (∃ k tail,
       marks_of evs = (take k checkpoints ++ tail)%list ∧
       (1 ≤ k)%nat ∧
       (tail = [] ∨ tail = [MProgress "completed" 1.0] ∨ tail = [MProgress "failed" 0.0])) ∧
    (∀ ws σ', pipeline_stages W id url_list (fs τ) = (Ok ws, σ') →
       ∃ tail, marks_of evs = (checkpoints ++ tail)%list ∧
               (tail = [] ∨ tail = [MProgress "completed" 1.0])) ∧
    (state j0 = "pending" → progress j0 = 0.0%float →
       nondecreasing (progress j0 :: live_progress evs) = true).
Proof.
  destruct τ as [J B F T]. destruct j0 as [jid st pr msg us cr co wk].
  cbn [jobs fs trace state progress]. intros Hj.
  exec.
  all: eexists _, _; split; [reflexivity|]; cbn [trace].
  all: split; [rewrite <- !(assoc_L (++)); reflexivity|].
  all: split; [vm_compute marks_of;
               first [pick_prefix 9%nat | pick_prefix 8%nat | pick_prefix 7%nat | pick_prefix 6%nat | pick_prefix 5%nat
                     | pick_prefix 4%nat | pick_prefix 3%nat | pick_prefix 2%nat | pick_prefix 1%nat]|].
  all: split; [intros ws σ' Hp; follow Hp;
               first [discriminate Hp | eexists; split; [reflexivity|auto]] |].
  all: intros -> ->; vm_compute; reflexivity.
Qed.

(** C4. A job whose two stages return without raising and leave no
    transcript ends failed with its progress still at 0.9: the assignment
    [progress = 0.0] of the [except] clause has no counterpart on this
    path. *)
Theorem no_transcripts_keeps_progress :
  ∃ τ' j',
    process_urls world_no_audio "7f3c" two_reels submitted = (Ok tt, τ') ∧
    jobs τ' !! "7f3c" = Some j' ∧
    state j' = "failed" ∧
    message j' = "No transcripts were generated" ∧
    progress j' = 0.9%float ∧
    progress j' ≠ 0.0%float.
Proof.
  eexists _, _. split; [vm_compute; reflexivity|].
  split; [vm_compute; reflexivity|].
  repeat split. vm_compute. discriminate.
Qed.

(** C5. A submission with an empty list of URLs is answered with the error
    400 and changes nothing: no job is stored and no task is scheduled. *)
Theorem empty_submission_rejected (W : world) (τ : proc) :
  submit_urls W [] τ = (Ok (HTTPException 400 "No URLs provided"), τ).
Proof. reflexivity. Qed.

Lemma get_job_status_jobs id τ : jobs (get_job_status id τ).2 = jobs τ.
Proof.
  destruct τ as [J B F T]. unfold get_job_status. repeat handler_step.
  destruct (J !! id); done.
Qed.

Lemma list_jobs_jobs τ : jobs (list_jobs τ).2 = jobs τ.
Proof. done. Qed.

Lemma download_result_jobs id τ : jobs (download_result id τ).2 = jobs τ.
Proof.
  destruct τ as [J B F T]. unfold download_result. repeat handler_step.
  destruct (J !! id) as [job|]; [|done].
  destruct (negb _); [done|].
  rewrite bind_run, workspace_on_disk_run. cbv beta iota.
  destruct (negb _); [done|].
  repeat handler_step.
  destruct (create_zip_file _ _ F) as [[[]|e] F1]; cbn [fst snd]; [|done].
  destruct (path_exists _ F1) as [[b|e] F2]; cbn [fst snd]; [|done].
  by destruct (negb b).
Qed.

(** C10. [completed_at] is [None] in the record that [submit_urls] stores, with
    the state pending; after the executor ran on that job, in any world, it
    is set exactly when the job is completed, and a job that ended failed has
    [completed_at = None]. The handlers that read the registry leave it as
    it is. *)
Theorem completed_at_iff_completed
    (W W' : world) (submission : list string) (τ : proc) :
  submission ≠ [] →
  let id := uuid4 W in
  let τ1 := (submit_urls W submission τ).2 in
  (∃ j1, jobs τ1 !! id = Some j1 ∧ state j1 = "pending" ∧ completed_at j1 = None) ∧
  (∃ τ2 j2,
     process_urls W' id submission τ1 = (Ok tt, τ2) ∧
     jobs τ2 !! id = Some j2 ∧
     (completed_at j2 ≠ None ↔ state j2 = "completed") ∧
     (state j2 = "failed" → completed_at j2 = None) ∧
     (∀ id', jobs (get_job_status id' τ2).2 = jobs τ2 ∧
             jobs (download_result id' τ2).2 = jobs τ2 ∧
             jobs (list_jobs τ2).2 = jobs τ2)).
Proof.
  intros Hne id τ1. subst id τ1.
  destruct submission as [|u us]; [done|].
  destruct τ as [J B F T].
  unfold submit_urls. rewrite bind_run. unfold modify. cbv beta iota.
  rewrite ret_run. cbn [snd jobs background fs trace].
  split; [eexists; split; [apply lookup_insert_eq|done]|].
  exec.
  all: eexists _, _; split; [reflexivity|]; cbn [jobs].
  all: split; [apply lookup_insert_eq|].
  all: split; [cbn; split; [intros H; done| intros H; done]|].
  all: split; [cbn; intros H; done|].
  all: intros id'; rewrite get_job_status_jobs, download_result_jobs, list_jobs_jobs; done.
Qed.

(** ** The handlers *)

Lemma create_zip_file_run source_dir zip_path σ :
  create_zip_file source_dir zip_path σ =
    (Ok tt,
     set_files (<[resolve σ zip_path :=
                    File (Archive (rglob_files (resolve σ source_dir)
                                     (<[resolve σ zip_path := File (Archive [])]> (files σ))))]>)
       (set_files (<[resolve σ zip_path := File (Archive [])]>) σ)).
Proof. reflexivity. Qed.

Lemma rmtree_lookup p σ q :
  files (rmtree p σ).2 !! q = if under (resolve σ p) q then None else files σ !! q.
Proof.
  unfold rmtree. cbn [snd set_files files].
  destruct (under (resolve σ p) q) eqn:Hu.
  - apply map_lookup_filter_None. right. intros x _. cbn [fst]. by rewrite Hu.
  - destruct (files σ !! q) as [x|] eqn:Hq.
    + apply map_lookup_filter_Some. done.
    + apply map_lookup_filter_None. by left.
Qed.

(** C7. Deleting a registered job answers with success, removes its entry
    from the registry, and, when the job has a workspace that is on the disk,
    removes the workspace and everything below it and nothing else; when the
    workspace is unset or absent from the disk the file system is left as it
    is. A status request for the same id then gets the 404 lookup error.
    Deleting an unknown id answers 404. *)
Theorem delete_job_removes (id : string) (τ : proc) :
  (jobs τ !! id = None →
     delete_job id τ = (Ok (HTTPException 404 "Job not found"), τ)) ∧
  (∀ job, jobs τ !! id = Some job →
     ∃ τ',
       delete_job id τ = (Ok (JsonMessage "Job deleted successfully"), τ') ∧
       jobs τ' = delete id (jobs τ) ∧
       jobs τ' !! id = None ∧
       get_job_status id τ' = (Ok (HTTPException 404 "Job not found"), τ') ∧
       (∀ w, workspace job = Some w → w ≠ "" →
          is_Some (files (fs τ) !! resolve (fs τ) w) →
          ∀ q, files (fs τ') !! q =
                 if under (resolve (fs τ) w) q then None else files (fs τ) !! q) ∧
       (truthy (workspace job) = false ∨
        files (fs τ) !! resolve (fs τ) (default "" (workspace job)) = None →
        fs τ' = fs τ)).
Proof.
  destruct τ as [J B F T]. cbn [jobs fs].
  unfold delete_job. repeat handler_step.
  split.
  - intros ->. done.
  - intros job ->. rewrite bind_run, workspace_on_disk_run. cbv beta iota.
    destruct (truthy (workspace job) && _) eqn:Hd.
    + repeat handler_step.
      eexists. split; [reflexivity|]. cbn [jobs fs].
      split; [done|]. split; [apply lookup_delete_eq|].
      split; [unfold get_job_status; repeat handler_step; by rewrite lookup_delete_eq|].
      split.
      * intros w Hw _ _ q. rewrite Hw. cbn [default]. apply rmtree_lookup.
      * apply andb_true_iff in Hd as [Ht Hx]. apply bool_decide_eq_true_1 in Hx.
        intros [Hf|Hn]; [congruence|]. rewrite Hn in Hx. by destruct Hx.
    + repeat handler_step.
      eexists. split; [reflexivity|]. cbn [jobs fs].
      split; [done|]. split; [apply lookup_delete_eq|].
      split; [unfold get_job_status; repeat handler_step; by rewrite lookup_delete_eq|].
      split; [|done].
      intros w Hw Hne Hx q. rewrite Hw in Hd. cbn [truthy default] in Hd.
      destruct w; [done|]. cbn [nonempty andb] in Hd.
      apply bool_decide_eq_false_1 in Hd. done.
Qed.

(** ** The fallback stage *)


Lemma append_inj_l (p a b : string) : p ++ a = p ++ b → a = b.
Proof. induction p as [|c p IH]; cbn; [done|]. intros [= H]. auto. Qed.

Lemma txt_path_not_audio σ url : resolve σ (fill_gaps.txt_path_of url) ≠ resolve σ (fill_gaps.audio_of url).
Proof.
  unfold resolve, fill_gaps.txt_path_of, fill_gaps.audio_of, fill_gaps.SUB_DIR, fill_gaps.TMP_DIR. cbn.
  intros H. apply append_inj_l in H. discriminate H.
Qed.

Lemma resolve_cwd σ σ' p : cwd σ' = cwd σ → resolve σ' p = resolve σ p.
Proof. unfold resolve. by intros ->. Qed.

Lemma resolve_set_files f σ p : resolve (set_files f σ) p = resolve σ p.
Proof. reflexivity. Qed.

Lemma keeps_bind q {A B} (m : IO A) (k : A → IO B) :
  keeps q m → (∀ a, keeps q (k a)) → keeps q (m ≫= k).
Proof.
  intros Hm Hk σ. rewrite bind_run. specialize (Hm σ).
  destruct (m σ) as [[a|e] σ1]; cbn [snd] in *; [|done].
  destruct Hm as [Hc Hq]. specialize (Hk a σ1).
  rewrite (resolve_cwd σ σ1 q Hc) in Hk. destruct Hk as [Hc1 Hq1].
  split; [congruence|auto].
Qed.

Lemma keeps_lift_result q {A} (r : result A) : keeps q (lift_result r).
Proof. done. Qed.

Lemma keeps_write q p s : keeps q (write p s).
Proof.
  intros σ. unfold write. cbn [snd set_files files cwd]. split; [done|].
  intros Hq. destruct (decide (resolve σ p = resolve σ q)) as [Heq|Hne].
  - rewrite <- Heq in *. repeat case_match; rewrite lookup_insert_eq; eauto.
  - repeat case_match; by rewrite lookup_insert_ne.
Qed.

Lemma keeps_for_each q {A} (l : list A) (body : A → IO unit) :
  (∀ x, keeps q (body x)) → keeps q (for_each l body).
Proof.
  intros Hb. induction l as [|x l IH]; [done|].
  cbn [for_each]. apply keeps_bind; [apply Hb|]. intros _. apply IH.
Qed.

Lemma keeps_write_segment q p seg : keeps q (fill_gaps.write_segment p seg).
Proof.
  unfold fill_gaps.write_segment.
  apply keeps_bind; [apply keeps_lift_result|]. intros start_time.
  apply keeps_bind; [apply keeps_lift_result|]. intros end_time.
  apply keeps_write.
Qed.


(** ** The URL list *)

Lemma rstrip_no_space l :
  Forall (λ c, PyStr.isspace c = false) l →
  PyStr.rstrip (string_of_list_ascii l) = string_of_list_ascii l.
Proof.
  induction 1 as [|c l Hc Hl IH]; [done|].
  cbn [string_of_list_ascii PyStr.rstrip]. rewrite IH, Hc.
  by destruct (string_of_list_ascii l).
Qed.

Lemma strip_token t : is_token t → PyStr.strip t = t ∧ nonempty t = true.
Proof.
  intros (l & Hne & Hl & ->). destruct l as [|c l]; [done|].
  split; [|done]. unfold PyStr.strip. cbn [string_of_list_ascii PyStr.lstrip].
  inversion Hl as [|? ? Hc Hl']; subst. rewrite Hc.
  apply (rstrip_no_space (c :: l)). by constructor.
Qed.

Lemma split_go_tokens s tok :
  Forall (λ c, PyStr.isspace c = false) tok → Forall is_token (PyStr.split_go tok s).
Proof.
  revert tok. induction s as [|c s IH]; intros tok Htok; cbn [PyStr.split_go].
  - destruct tok as [|c' tok']; [constructor|].
    constructor; [|constructor].
    exists (rev (c' :: tok')). split; [|split; [by apply Forall_rev|done]].
    intros H. apply (f_equal (@length _)) in H. rewrite length_rev in H. done.
  - destruct (PyStr.isspace c) eqn:Hc.
    + destruct tok as [|c' tok']; [by apply IH|].
      constructor; [|by apply IH].
      exists (rev (c' :: tok')). split; [|split; [by apply Forall_rev|done]].
      intros H. apply (f_equal (@length _)) in H. rewrite length_rev in H. done.
    + apply IH. by constructor.
Qed.

Lemma split_tokens s : Forall is_token (PyStr.split s).
Proof. by apply split_go_tokens. Qed.

Lemma set_files_set_files f g σ : set_files f (set_files g σ) = set_files (f ∘ g) σ.
Proof. reflexivity. Qed.

Lemma string_app_assoc (a b c : string) : (a ++ b) ++ c = a ++ b ++ c.
Proof.
  induction a as [|x a IH]; [done|].
  change (String x ((a ++ b) ++ c) = String x (a ++ b ++ c)). by rewrite IH.
Qed.

Lemma string_app_nil_r (a : string) : a ++ "" = a.
Proof.
  induction a as [|x a IH]; [done|].
  change (String x (a ++ "") = String x a). by rewrite IH.
Qed.

Lemma reels_text_app a b : reels_text (a ++ b)%list = reels_text a ++ reels_text b.
Proof.
  induction a as [|u a IH]; cbn [reels_text fold_right app]; [done|].
  fold (reels_text (a ++ b)%list). fold (reels_text a).
  by rewrite IH, !string_app_assoc.
Qed.

Lemma write_run p s σ t :
  files σ !! resolve σ p = Some (File (Text t)) →
  write p s σ = (Ok tt, set_files (<[resolve σ p := File (Text (t ++ s))]>) σ).
Proof. intros H. unfold write, set_files. by rewrite H. Qed.

(** Writing the tokens of one submitted string appends one line per token. *)
Lemma write_tokens p toks σ t :
  Forall is_token toks →
  files σ !! resolve σ p = Some (File (Text t)) →
  for_each toks
    (λ u, if nonempty (PyStr.strip u) then write p (PyStr.strip u ++ nl) else mret tt) σ =
    (Ok tt, set_files (<[resolve σ p := File (Text (t ++ reels_text toks))]>) σ).
Proof.
  intros Htoks. revert σ t. induction Htoks as [|u toks Hu Htoks IH]; intros σ t Hp.
  - cbn [for_each reels_text fold_right]. rewrite ret_run. f_equal.
    destruct σ as [m c]. unfold set_files. cbn [files cwd] in *. f_equal.
    rewrite insert_id; [done|]. by rewrite Hp, string_app_nil_r.
  - cbn [for_each]. rewrite bind_run.
    destruct (strip_token u Hu) as [-> ->].
    rewrite (write_run _ _ _ _ Hp).
    erewrite IH; [|rewrite resolve_set_files; cbn [files set_files]; apply lookup_insert_eq].
    rewrite resolve_set_files, set_files_set_files. f_equal.
    destruct σ as [m c]. unfold set_files. cbn [files cwd compose]. f_equal.
    rewrite insert_insert_eq. do 3 f_equal.
    cbn [reels_text fold_right]. by rewrite !string_app_assoc.
Qed.

Lemma write_urls p url_list σ t :
  files σ !! resolve σ p = Some (File (Text t)) →
  for_each url_list (λ url,
    for_each (PyStr.split url) (λ u,
      if nonempty (PyStr.strip u) then write p (PyStr.strip u ++ nl) else mret tt)) σ =
    (Ok tt, set_files (<[resolve σ p := File (Text (t ++ reels_text (tokenized url_list)))]>) σ).
Proof.
  revert σ t. induction url_list as [|url l IH]; intros σ t Hp.
  - apply (write_tokens p [] σ t); [constructor|done].
  - cbn [for_each]. rewrite bind_run.
    rewrite (write_tokens p (PyStr.split url) σ t (split_tokens url) Hp).
    erewrite IH; [|rewrite resolve_set_files; cbn [files set_files]; apply lookup_insert_eq].
    rewrite resolve_set_files, set_files_set_files. f_equal.
    destruct σ as [m c]. unfold set_files. cbn [files cwd compose]. f_equal.
    rewrite insert_insert_eq. do 3 f_equal.
    unfold tokenized. cbn [map concat]. by rewrite reels_text_app, string_app_assoc.
Qed.

Lemma write_reels_run p url_list σ :
  write_reels p url_list σ =
    (Ok tt, set_files (<[resolve σ p := File (Text (reels_text (tokenized url_list)))]>) σ).
Proof.
  unfold write_reels. rewrite bind_run. unfold open_w. cbv beta iota.
  erewrite write_urls; [|rewrite resolve_set_files; cbn [files set_files]; apply lookup_insert_eq].
  rewrite resolve_set_files, set_files_set_files. f_equal.
  destruct σ as [m c]. unfold set_files. cbn [files cwd compose]. f_equal.
  by rewrite insert_insert_eq.
Qed.


(** C8, as stated, fails: the [urls] field of a job submitted with two URLs
    pasted as one string holds that one string, not its two tokens. *)
Lemma urls_field_not_tokenized :
  ∃ j, jobs (submit_urls world_ok pasted proc0).2 !! "7f3c" = Some j ∧
       urls j = pasted ∧
       urls j ≠ tokenized pasted.
Proof.
  eexists. split; [vm_compute; reflexivity|]. split; [reflexivity|].
  vm_compute. discriminate.
Qed.

(** C8, amended. The [urls] field of a submitted job holds the list of
    strings exactly as submitted, not split at whitespace, and the executor
    leaves it unchanged whatever happens in its run; the handlers that read
    the registry do not change it. *)
Theorem urls_field_as_submitted
    (W W' : world) (submission : list string) (τ : proc) :
  submission ≠ [] →
  let id := uuid4 W in
  let τ1 := (submit_urls W submission τ).2 in
  (∃ j1, jobs τ1 !! id = Some j1 ∧ urls j1 = submission) ∧
  (∃ τ2 j2,
     process_urls W' id submission τ1 = (Ok tt, τ2) ∧
     jobs τ2 !! id = Some j2 ∧
     urls j2 = submission ∧
     (∀ id', jobs (get_job_status id' τ2).2 = jobs τ2 ∧
             jobs (download_result id' τ2).2 = jobs τ2 ∧
             jobs (list_jobs τ2).2 = jobs τ2)).
Proof.
  intros Hne id τ1. subst id τ1.
  destruct submission as [|u us]; [done|].
  destruct τ as [J B F T].
  unfold submit_urls. rewrite bind_run. unfold modify. cbv beta iota.
  rewrite ret_run. cbn [snd jobs background fs trace].
  split; [eexists; split; [apply lookup_insert_eq|done]|].
  exec.
  all: eexists _, _; split; [reflexivity|]; cbn [jobs].
  all: split; [apply lookup_insert_eq|].
  all: split; [done|].
  all: intros id'; rewrite get_job_status_jobs, download_result_jobs, list_jobs_jobs; done.
Qed.

(** ** The properties at work on the sample process *)

Lemma terminal_resolution_witness :
  jobs submitted !! "7f3c" = Some sample_job ∧
  ∃ τ' j',
    process_urls world_ok "7f3c" two_reels submitted = (Ok tt, τ') ∧
    jobs τ' !! "7f3c" = Some j' ∧
    state j' = "completed" ∧ progress j' = 1.0%float.
Proof.
  assert (H0 : jobs submitted !! "7f3c" = Some sample_job) by (vm_compute; reflexivity).
  split; [exact H0|].
  destruct (terminal_resolution_counts_transcripts world_ok "7f3c" two_reels submitted
              sample_job "/tmp/job_7f3c_k3x"
              (pipeline_stages world_ok "7f3c" two_reels (fs submitted)).2 H0)
    as (τ' & j' & H1 & _ & H2 & _ & H3).
  - vm_compute. reflexivity.
  - exists τ', j'. split; [exact H1|]. split; [exact H2|].
    destruct H3 as (Hs & Hp & _); [vm_compute; lia|]. by split.
Defined.

Lemma executor_converts_witness :
  jobs submitted !! "7f3c" = Some sample_job ∧
  ∃ τ' j',
    process_urls world_no_tempdir "7f3c" two_reels submitted = (Ok tt, τ') ∧
    jobs τ' !! "7f3c" = Some j' ∧
    state j' = "failed" ∧ progress j' = 0.0%float ∧
    message j' = "Error: No space left on device".
Proof.
  assert (H0 : jobs submitted !! "7f3c" = Some sample_job) by (vm_compute; reflexivity).
  split; [exact H0|].
  destruct (executor_converts_exceptions world_no_tempdir "7f3c" two_reels submitted
              sample_job H0) as (τ' & j' & H1 & H2 & _ & H3).
  exists τ', j'. split; [exact H1|]. split; [exact H2|].
  apply (H3 (Exn OtherError "No space left on device")
            (process_urls_body world_no_tempdir "7f3c" two_reels submitted).2).
  vm_compute. reflexivity.
Defined.

Lemma checkpoints_witness :
  jobs submitted !! "7f3c" = Some sample_job ∧
  ∃ τ' evs,
    process_urls world_ok "7f3c" two_reels submitted = (Ok tt, τ') ∧
    trace τ' = (trace submitted ++ evs)%list ∧
    nondecreasing (progress sample_job :: live_progress evs) = true.
Proof.
  assert (H0 : jobs submitted !! "7f3c" = Some sample_job) by (vm_compute; reflexivity).
  split; [exact H0|].
  destruct (checkpoints_in_order world_ok "7f3c" two_reels submitted sample_job H0)
    as (τ' & evs & H1 & H2 & _ & _ & H3).
  exists τ', evs. split; [exact H1|]. split; [exact H2|].
  apply H3; reflexivity.
Defined.

Lemma completed_at_witness :
  two_reels ≠ [] ∧
  ∃ τ2 j2,
    process_urls world_no_audio (uuid4 world_ok) two_reels
      (submit_urls world_ok two_reels proc0).2 = (Ok tt, τ2) ∧
    jobs τ2 !! uuid4 world_ok = Some j2 ∧
    (completed_at j2 ≠ None ↔ state j2 = "completed").
Proof.
  assert (H0 : two_reels ≠ []) by discriminate.
  split; [exact H0|].
  destruct (completed_at_iff_completed world_ok world_no_audio two_reels proc0 H0)
    as (_ & τ2 & j2 & H1 & H2 & H3 & _).
  exists τ2, j2. split; [exact H1|]. split; [exact H2|exact H3].
Defined.

Lemma urls_field_witness :
  pasted ≠ [] ∧
  ∃ j1, jobs (submit_urls world_ok pasted proc0).2 !! uuid4 world_ok = Some j1 ∧
        urls j1 = pasted.
Proof.
  assert (H0 : pasted ≠ []) by discriminate.
  split; [exact H0|].
  destruct (urls_field_as_submitted world_ok world_ok pasted proc0 H0) as (H1 & _).
  exact H1.
Defined.

Lemma delete_job_witness :
  ∃ τ',
    delete_job "7f3c" finished = (Ok (JsonMessage "Job deleted successfully"), τ') ∧
    jobs τ' !! "7f3c" = None ∧
    get_job_status "7f3c" τ' = (Ok (HTTPException 404 "Job not found"), τ') ∧
    files (fs τ') !! "/tmp/job_7f3c_k3x/subs/ABC123.txt" = None.
Proof.
  destruct (delete_job_removes "7f3c" finished) as (_ & H).
  destruct (H (mkJob "7f3c" "completed" 1.0 "Successfully processed 2 transcripts" two_reels
                 "2024-05-01T10:00:00" (Some "2024-05-01T10:00:00") (Some "/tmp/job_7f3c_k3x")))
    as (τ' & H1 & _ & H2 & H3 & H4 & _).
  - vm_compute. reflexivity.
  - exists τ'. split; [exact H1|]. split; [exact H2|]. split; [exact H3|].
    rewrite (H4 "/tmp/job_7f3c_k3x"); [reflexivity|reflexivity|discriminate|].
    vm_compute. eauto.
Defined.


(** ** Further properties of the executor *)

(** [submit_urls] with at least one URL stores a pending job under the fresh
    id, schedules one task for it, answers with the id, and leaves every
    other job as it was; a status request for the id then reports the job
    as pending with progress 0.0. *)
Theorem submit_then_status (W : world) (submission : list string) (τ : proc) :
  submission ≠ [] →
  ∃ τ1,
    submit_urls W submission τ = (Ok (JobResponse (uuid4 W) "Job submitted successfully"), τ1) ∧
    background τ1 = (background τ ++ [(uuid4 W, submission)])%list ∧
    fs τ1 = fs τ ∧
    (∀ id', id' ≠ uuid4 W → jobs τ1 !! id' = jobs τ !! id') ∧
    get_job_status (uuid4 W) τ1 =
      (Ok (JobStatus (uuid4 W) "pending" 0.0 "Job created" (now_isoformat W) None), τ1).
Proof.
  intros Hne. destruct submission as [|u us]; [done|]. destruct τ as [J B F T].
  unfold submit_urls. repeat handler_step.
  eexists. split; [reflexivity|]. cbn [jobs background fs].
  split; [done|]. split; [done|].
  split; [intros id' Hid; by rewrite lookup_insert_ne|].
  unfold get_job_status. repeat handler_step. by rewrite lookup_insert_eq.
Qed.

(** The executor works on one job: the records of all other jobs and the
    scheduled tasks are left as they were, and in the job's own record the
    id, the creation time and the URLs are never assigned. *)
Theorem process_urls_frame
    (W : world) (id : string) (url_list : list string) (τ : proc) (j0 : Job) :
  jobs τ !! id = Some j0 →
  ∃ τ' j',
    process_urls W id url_list τ = (Ok tt, τ') ∧
    jobs τ' !! id = Some j' ∧
    job_id j' = job_id j0 ∧ created_at j' = created_at j0 ∧ urls j' = urls j0 ∧
    background τ' = background τ ∧
    (∀ id', id' ≠ id → jobs τ' !! id' = jobs τ !! id').
Proof.
  destruct τ as [J B F T]. cbn [jobs background]. intros Hj.
  exec.
  all: eexists _, _; split; [reflexivity|]; cbn [jobs background].
  all: split; [apply lookup_insert_eq|].
  all: do 4 (split; [done|]).
  all: intros id' Hid; by rewrite !lookup_insert_ne.
Qed.

(** For an id that is not a key of the registry the first assignment of the
    [try] block raises [KeyError], and so does the first assignment of the
    [except] clause: the error leaves [process_urls], and nothing was
    changed. *)
Theorem process_urls_unregistered
    (W : world) (id : string) (url_list : list string) (τ : proc) :
  jobs τ !! id = None →
  process_urls W id url_list τ = (Raise (Exn KeyError ("'" ++ id ++ "'")), τ).
Proof.
  intros Hj. unfold process_urls, try_except, process_urls_body, process_urls_handler.
  rewrite bind_run. unfold job_set at 1. rewrite Hj.
  rewrite bind_run. unfold job_set at 1. by rewrite Hj.
Qed.

(** Every run of the executor on a registered job ends in a terminal state.
    A completed job has progress 1.0, a completion time and a workspace; a
    failed job has no completion time if it had none, and its progress is 0.0
    (an exception was caught) or 0.9 (no transcript was found). *)
Theorem process_urls_terminal
    (W : world) (id : string) (url_list : list string) (τ : proc) (j0 : Job) :
  jobs τ !! id = Some j0 →
  ∃ τ' j',
    process_urls W id url_list τ = (Ok tt, τ') ∧
    jobs τ' !! id = Some j' ∧
    (state j' = "completed" ∧ progress j' = 1.0%float ∧
     completed_at j' = Some (now_isoformat W) ∧ is_Some (workspace j')
     ∨
     state j' = "failed" ∧ completed_at j' = completed_at j0 ∧
     (progress j' = 0.0%float ∧ (∃ e, message j' = "Error: " ++ exn_str e)
      ∨ progress j' = 0.9%float ∧ message j' = "No transcripts were generated")).
Proof.
  destruct τ as [J B F T]. cbn [jobs]. intros Hj.
  exec.
  all: eexists _, _; split; [reflexivity|]; cbn [jobs].
  all: split; [apply lookup_insert_eq|].
  all: first [ left; cbn; by eauto
             | right; split; [done|]; split; [done|]; right; by split
             | right; split; [done|]; split; [done|]; left; split; [done|]; by eexists ].
Qed.

(** The job's [workspace] field after a run: the directory that [mkdtemp]
    made, named after the job, whenever it made one, also when the job ends
    failed; and the old value when [mkdtemp] raised. *)
Theorem workspace_recorded
    (W : world) (id : string) (url_list : list string) (τ : proc) (j0 : Job) :
  jobs τ !! id = Some j0 →
  ∃ τ' j',
    process_urls W id url_list τ = (Ok tt, τ') ∧
    jobs τ' !! id = Some j' ∧
    workspace j' =
      match mkdtemp_error W with
      | None => Some (tempdir W ++ "/" ++ ("job_" ++ id ++ "_") ++ mkdtemp_random W)
      | Some _ => workspace j0
      end.
Proof.
  destruct τ as [J B F T]. cbn [jobs]. intros Hj.
  exec.
  all: eexists _, _; split; [reflexivity|]; cbn [jobs].
  all: split; [apply lookup_insert_eq|].
  all: unfold mkdtemp in E; destruct (mkdtemp_error W); [try discriminate E|try discriminate E].
  all: try (injection E as <- _); done.
Qed.

(** ** Paths and archives *)

Lemma prefix_app (p s : string) : String.prefix p (p ++ s) = true.
Proof.
  induction p as [|c p IH]; [by destruct s|].
  change (String.prefix (String c p) (String c (p ++ s)) = true).
  cbn [String.prefix]. destruct (ascii_dec c c); [exact IH|done].
Qed.

Lemma prefix_app_cancel (p a b : string) : String.prefix (p ++ a) (p ++ b) = String.prefix a b.
Proof.
  induction p as [|c p IH]; [done|].
  change (String.prefix (String c (p ++ a)) (String c (p ++ b)) = String.prefix a b).
  cbn [String.prefix]. destruct (ascii_dec c c); [exact IH|done].
Qed.

Lemma substring_ge (s : string) (n : nat) :
  (String.length s ≤ n)%nat → String.substring 0 n s = s.
Proof.
  revert n. induction s as [|c s IH]; intros n H; [by destruct n|].
  destruct n as [|n]; [cbn in H; lia|]. cbn in *. rewrite IH; [done|lia].
Qed.

Lemma prefix_split_at (p q : string) (n : nat) :
  String.prefix p q = true →
  (String.length q ≤ String.length p + n)%nat →
  q = p ++ String.substring (String.length p) n q.
Proof.
  revert q. induction p as [|c p IH]; intros q H Hn.
  - cbn in *. by rewrite substring_ge.
  - destruct q as [|d q]; [done|]. cbn [String.prefix] in H.
    destruct (ascii_dec c d) as [->|]; [|done].
    change (String d q = String d (p ++ String.substring (String.length p) n q)).
    f_equal. apply IH; [done|]. cbn in Hn. lia.
Qed.

(** A path with the prefix [p] is [p] followed by what [substring] cuts off. *)
Lemma prefix_split (p q : string) :
  String.prefix p q = true →
  q = p ++ String.substring (String.length p) (String.length q) q.
Proof. intros H. apply prefix_split_at; [done|lia]. Qed.

Lemma string_length_app (p s : string) : String.length (p ++ s) = (String.length p + String.length s)%nat.
Proof.
  induction p as [|c p IH]; [done|].
  change (S (String.length (p ++ s)) = S (String.length p + String.length s)). by rewrite IH.
Qed.

Lemma substring_skip (p s : string) (n : nat) :
  String.substring (String.length p) n (p ++ s) = String.substring 0 n s.
Proof.
  induction p as [|c p IH]; [done|].
  change (String.substring (S (String.length p)) n (String c (p ++ s)) = String.substring 0 n s).
  cbn [String.substring]. exact IH.
Qed.

(** Cutting the prefix off [p ++ s] gives [s] back. *)
Lemma substring_app (p s : string) :
  String.substring (String.length p) (String.length (p ++ s)) (p ++ s) = s.
Proof. rewrite substring_skip, string_length_app. apply substring_ge. lia. Qed.

Lemma elem_of_rglob_files (source_dir : string) (m : gmap string node) (name : string) (c : content) :
  (name, c) ∈ rglob_files source_dir m ↔
  m !! source_dir = Some Dir ∧ m !! (source_dir ++ "/" ++ name) = Some (File c).
Proof.
  unfold rglob_files. destruct (m !! source_dir) as [[c0|]|] eqn:Hs.
  1,3: split; [by intros ?%elem_of_nil|by intros [? _]].
  rewrite list_elem_of_omap. split.
  - intros ([q x] & Hin & Hf). apply elem_of_map_to_list in Hin. cbn [fst snd] in Hf.
    destruct x as [c'|]; [|done].
    destruct (PyStr.startswith (source_dir ++ "/") q) eqn:Hp; [|done].
    injection Hf as <- <-. split; [done|].
    apply prefix_split in Hp. rewrite string_length_app in Hp. cbn [String.length] in Hp.
    rewrite string_app_assoc in Hp. by rewrite <- Hp.
  - intros [_ Hq]. exists (source_dir ++ "/" ++ name, File c).
    split; [by apply elem_of_map_to_list|]. cbn [fst snd].
    rewrite <- string_app_assoc. unfold PyStr.startswith. rewrite prefix_app.
    f_equal. f_equal.
    replace (String.length source_dir + 1)%nat with (String.length (source_dir ++ "/"))
      by (by rewrite string_length_app).
    apply substring_app.
Qed.

(** What [create_zip_file] packs. *)
Lemma create_zip_file_entries (source_dir zip_path : string) (σ : fsstate) :
  PyStr.startswith (resolve σ source_dir ++ "/") (resolve σ zip_path) = false →
  resolve σ zip_path ≠ resolve σ source_dir →
  ∃ entries,
    create_zip_file source_dir zip_path σ =
      (Ok tt, set_files (<[resolve σ zip_path := File (Archive entries)]>) σ) ∧
    ∀ name c,
      (name, c) ∈ entries ↔
      files σ !! resolve σ source_dir = Some Dir ∧
      files σ !! (resolve σ source_dir ++ "/" ++ name) = Some (File c).
Proof.
  intros Hout Hne. rewrite create_zip_file_run. eexists. split.
  - rewrite set_files_set_files. f_equal.
    unfold set_files. cbn [files cwd compose]. f_equal.
    by rewrite insert_insert_eq.
  - intros name c. rewrite elem_of_rglob_files. cbn [files set_files].
    assert (Hn : resolve σ zip_path ≠ resolve σ source_dir ++ "/" ++ name).
    { intros Heq. rewrite Heq, <- string_app_assoc in Hout.
      unfold PyStr.startswith in Hout. by rewrite prefix_app in Hout. }
    by rewrite !lookup_insert_ne.
Qed.

(** [create_zip_file] leaves at [zip_path] an archive that holds exactly the
    files below [source_dir], each under its path relative to [source_dir]
    and with its content; the archive is empty when [source_dir] is not a
    directory. Nothing else in the file system changes. *)
Theorem archive_mirrors_directory (source_dir zip_path : string) (σ : fsstate) :
  PyStr.startswith (resolve σ source_dir ++ "/") (resolve σ zip_path) = false →
  resolve σ zip_path ≠ resolve σ source_dir →
  ∃ entries,
    create_zip_file source_dir zip_path σ =
      (Ok tt, set_files (<[resolve σ zip_path := File (Archive entries)]>) σ) ∧
    ∀ name c,
      (name, c) ∈ entries ↔
      files σ !! resolve σ source_dir = Some Dir ∧
      files σ !! (resolve σ source_dir ++ "/" ++ name) = Some (File c).
Proof. apply create_zip_file_entries. Qed.

Lemma resolve_app σ (w x : string) :
  w ≠ "" → resolve σ (w ++ x) = resolve σ w ++ x.
Proof.
  intros Hw. unfold resolve, PyStr.startswith. destruct w as [|c w]; [done|].
  change (String c w ++ x) with (String c (w ++ x)). cbn [String.prefix].
  destruct (ascii_dec "/" c); [|by rewrite !string_app_assoc].
  assert (Hnil : ∀ s, String.prefix "" s = true) by (by intros []).
  by rewrite !Hnil.
Qed.

(** The archive of a job lies beside its [subs] directory, not in it. *)
Lemma zip_beside_subs σ (w : string) :
  w ≠ "" →
  PyStr.startswith (resolve σ (w ++ "/subs") ++ "/")
    (resolve σ (w ++ "/transcripts.zip")) = false ∧
  resolve σ (w ++ "/transcripts.zip") ≠ resolve σ (w ++ "/subs").
Proof.
  intros Hw. rewrite !resolve_app by done. split.
  - rewrite string_app_assoc. unfold PyStr.startswith. by rewrite prefix_app_cancel.
  - intros H%append_inj_l. discriminate H.
Qed.

(** The handler on a completed job whose workspace is on the disk. *)
Lemma download_result_completed id J B F T job (w : string) :
  J !! id = Some job → state job = "completed" →
  workspace job = Some w → w ≠ "" →
  is_Some (files F !! resolve F w) →
  download_result id (Proc J B F T) =
    (Ok (FileResponse (w ++ "/transcripts.zip") "application/zip"
           ("transcripts_" ++ id ++ ".zip")),
     Proc J B (create_zip_file (w ++ "/subs") (w ++ "/transcripts.zip") F).2 T).
Proof.
  intros Hj Hst Hw Hne Hd. unfold download_result. repeat handler_step.
  rewrite Hj, Hst, String.eqb_refl, Hw. cbn [negb default]. cbv beta iota.
  rewrite bind_run, workspace_on_disk_run. cbv beta iota. cbn [default truthy].
  destruct w as [|c0 w']; [done|]. cbn [nonempty andb].
  rewrite (bool_decide_eq_true_2 _ Hd). cbn [negb].
  repeat handler_step. rewrite create_zip_file_run. cbn [fst snd].
  unfold path_exists. cbn [fst snd set_files files cwd resolve].
  rewrite bool_decide_eq_true_2 by (rewrite lookup_insert_eq; eauto).
  cbn [negb]. by rewrite ret_run.
Qed.

(** Asking for the result of a completed job twice gives the same response
    twice, and the two archives hold the same files: the archive is written
    beside the output directory, not in it. *)
Theorem download_result_twice (id : string) (τ : proc) (job : Job) (w : string) :
  jobs τ !! id = Some job → state job = "completed" →
  workspace job = Some w → w ≠ "" →
  is_Some (files (fs τ) !! resolve (fs τ) w) →
  ∃ resp τ1 τ2 entries1 entries2,
    download_result id τ = (Ok resp, τ1) ∧
    download_result id τ1 = (Ok resp, τ2) ∧
    resp = FileResponse (w ++ "/transcripts.zip") "application/zip"
             ("transcripts_" ++ id ++ ".zip") ∧
    files (fs τ1) !! resolve (fs τ) (w ++ "/transcripts.zip") = Some (File (Archive entries1)) ∧
    files (fs τ2) !! resolve (fs τ) (w ++ "/transcripts.zip") = Some (File (Archive entries2)) ∧
    ∀ name c, (name, c) ∈ entries1 ↔ (name, c) ∈ entries2.
Proof.
  destruct τ as [J B F T]. cbn [jobs fs]. intros Hj Hst Hw Hne Hd.
  destruct (zip_beside_subs F w Hne) as [Hout Hneq].
  destruct (create_zip_file_entries (w ++ "/subs") (w ++ "/transcripts.zip") F Hout Hneq)
    as (e1 & Hz1 & He1).
  set (F1 := set_files (<[resolve F (w ++ "/transcripts.zip") := File (Archive e1)]>) F) in *.
  assert (Hc1 : cwd F1 = cwd F) by done.
  destruct (zip_beside_subs F1 w Hne) as [Hout1 Hneq1].
  destruct (create_zip_file_entries (w ++ "/subs") (w ++ "/transcripts.zip") F1 Hout1 Hneq1)
    as (e2 & Hz2 & He2).
  assert (Hd1 : is_Some (files F1 !! resolve F1 w)).
  { rewrite (resolve_cwd F F1) by done. subst F1. cbn [files set_files].
    destruct (decide (resolve F (w ++ "/transcripts.zip") = resolve F w)) as [->|Hx].
    - rewrite lookup_insert_eq. eauto.
    - by rewrite lookup_insert_ne. }
  exists (FileResponse (w ++ "/transcripts.zip") "application/zip" ("transcripts_" ++ id ++ ".zip")).
  eexists _, _, e1, e2.
  split; [by apply (download_result_completed id J B F T job w)|].
  rewrite Hz1. cbn [snd].
  split; [by apply (download_result_completed id J B F1 T job w)|].
  rewrite Hz2. cbn [snd fs].
  split; [done|]. split; [subst F1; cbn [files set_files]; apply lookup_insert_eq|].
  split.
  { rewrite (resolve_cwd F F1) by done. cbn [files set_files]. apply lookup_insert_eq. }
  intros name c. rewrite He1, He2.
  rewrite !(resolve_cwd F F1) by done. subst F1. cbn [files set_files].
  assert (Hn : resolve F (w ++ "/transcripts.zip") ≠ resolve F (w ++ "/subs") ++ "/" ++ name).
  { intros Heq. rewrite Heq, <- string_app_assoc in Hout.
    unfold PyStr.startswith in Hout. by rewrite prefix_app in Hout. }
  by rewrite !lookup_insert_ne.
Qed.

(** C6. The download handler answers 404 for an unknown id; 400, with nothing
    written, for a job that is not completed; 404 for a completed job whose
    workspace is unset or absent from the disk; and otherwise writes the
    archive and streams it under the name transcripts_{job_id}.zip. The
    archive it streams holds exactly the files below the job's [subs]
    directory, each under its path relative to that directory and with its
    content, and writing it changes nothing else. *)
Theorem download_result_outcomes (id : string) (τ : proc) :
  (jobs τ !! id = None →
     download_result id τ = (Ok (HTTPException 404 "Job not found"), τ)) ∧
  (∀ job, jobs τ !! id = Some job → state job ≠ "completed" →
     download_result id τ = (Ok (HTTPException 400 "Job not completed yet"), τ)) ∧
  (∀ job, jobs τ !! id = Some job → state job = "completed" →
     truthy (workspace job) = false ∨
     files (fs τ) !! resolve (fs τ) (default "" (workspace job)) = None →
     download_result id τ = (Ok (HTTPException 404 "Results not found"), τ)) ∧
  (∀ job w, jobs τ !! id = Some job → state job = "completed" →
     workspace job = Some w → w ≠ "" →
     is_Some (files (fs τ) !! resolve (fs τ) w) →
     ∃ τ' entries,
       download_result id τ =
         (Ok (FileResponse (w ++ "/transcripts.zip") "application/zip"
                ("transcripts_" ++ id ++ ".zip")), τ') ∧
       jobs τ' = jobs τ ∧
       files (fs τ') !! resolve (fs τ) (w ++ "/transcripts.zip") =
         Some (File (Archive entries)) ∧
       fs τ' =
         set_files (<[resolve (fs τ) (w ++ "/transcripts.zip") := File (Archive entries)]>)
           (fs τ) ∧
       (∀ name c,
          (name, c) ∈ entries ↔
          files (fs τ) !! resolve (fs τ) (w ++ "/subs") = Some Dir ∧
          files (fs τ) !! (resolve (fs τ) (w ++ "/subs") ++ "/" ++ name) = Some (File c))).
Proof.
  destruct τ as [J B F T]. cbn [jobs fs].
  split; [|split; [|split]].
  - intros Hj. unfold download_result. repeat handler_step. by rewrite Hj.
  - intros job Hj Hst. unfold download_result. repeat handler_step. rewrite Hj.
    destruct (String.eqb_spec (state job) "completed") as [He|He]; [done|].
    done.
  - intros job Hj Hst Hw. unfold download_result. repeat handler_step.
    rewrite Hj, Hst, String.eqb_refl. cbn [negb]. cbv beta iota.
    rewrite bind_run, workspace_on_disk_run. cbv beta iota.
    destruct Hw as [-> | ->]; [done|].
    rewrite andb_comm. done.
  - intros job w Hj Hst Hw Hne Hd.
    destruct (zip_beside_subs F w Hne) as [Hout Hneq].
    destruct (create_zip_file_entries (w ++ "/subs") (w ++ "/transcripts.zip") F Hout Hneq)
      as (entries & Hz & He).
    eexists _, entries.
    split; [by apply (download_result_completed id J B F T job w)|].
    rewrite Hz. cbn [snd jobs fs files set_files].
    split; [done|]. split; [apply lookup_insert_eq|]. split; [done|]. exact He.
Qed.

(** [GET /jobs] changes nothing and lists the records of the registry: as
    many as there are jobs, and a record is listed exactly when it is stored
    under some id. *)
Theorem list_jobs_lists_registry (τ : proc) :
  ∃ js,
    list_jobs τ = (Ok (JsonJobs js), τ) ∧
    length js = size (jobs τ) ∧
    ∀ j, j ∈ js ↔ ∃ id, jobs τ !! id = Some j.
Proof.
  eexists. split; [reflexivity|]. split.
  - by rewrite length_fmap, length_map_to_list.
  - intros j. rewrite list_elem_of_fmap. split.
    + intros ([id j'] & -> & Hin). exists id. by apply elem_of_map_to_list.
    + intros [id Hid]. exists (id, j). split; [done|]. by apply elem_of_map_to_list.
Qed.

Lemma split_on_go_nonempty sep tok s : PyStr.split_on_go sep tok s ≠ [].
Proof.
  revert tok. induction s as [|c s IH]; intros tok; cbn [PyStr.split_on_go]; [done|].
  destruct (Ascii.eqb c sep); [done|apply IH].
Qed.

Lemma split_on_go_last sep tok s :
  Forall (λ c, Ascii.eqb c sep = false) tok →
  Forall (λ c, Ascii.eqb c sep = false)
    (list_ascii_of_string (List.last (PyStr.split_on_go sep tok s) "")).
Proof.
  revert tok. induction s as [|c s IH]; intros tok Htok; cbn [PyStr.split_on_go].
  - cbn [List.last]. rewrite list_ascii_of_string_of_list_ascii. by apply Forall_rev.
  - destruct (Ascii.eqb c sep) eqn:Hc.
    + specialize (IH [] (Forall_nil_2 _)).
      pose proof (split_on_go_nonempty sep [] s) as Hne.
      cbn [List.last]. by destruct (PyStr.split_on_go sep [] s).
    + apply IH. by constructor.
Qed.

Lemma endswith_app (s p : string) : PyStr.endswith p (s ++ p) = true.
Proof.
  unfold PyStr.endswith. rewrite string_length_app.
  replace (String.length s + String.length p - String.length p)%nat with (String.length s) by lia.
  rewrite substring_skip, substring_ge by lia. rewrite String.eqb_refl.
  apply andb_true_iff. split; [apply Nat.leb_le; lia|done].
Qed.

Lemma list_ascii_app (a b : string) :
  list_ascii_of_string (a ++ b) = (list_ascii_of_string a ++ list_ascii_of_string b)%list.
Proof.
  induction a as [|c a IH]; [done|].
  change (c :: list_ascii_of_string (a ++ b) =
          c :: (list_ascii_of_string a ++ list_ascii_of_string b)%list).
  by rewrite IH.
Qed.

(** The transcript file of a URL, which the fallback stage writes in the
    workspace, is an entry of the listing [subs/*.txt] that the executor
    counts: the name taken from the URL contains no '/', so the file is a
    direct child of [subs], and it ends in ".txt". *)
Theorem transcript_is_counted (url ws : string) (σ : fsstate) :
  PyStr.startswith "/" ws = true →
  files σ !! (ws ++ "/subs") = Some Dir →
  is_Some (files σ !! (ws ++ "/" ++ fill_gaps.txt_path_of url)) →
  (ws ++ "/" ++ fill_gaps.txt_path_of url) ∈ txt_entries (ws ++ "/subs") σ.
Proof.
  intros Habs Hdir [x Hx]. unfold txt_entries.
  assert (Hres : resolve σ (ws ++ "/subs") = ws ++ "/subs").
  { unfold resolve, PyStr.startswith in *. destruct ws as [|c ws]; [done|].
    change (String c ws ++ "/subs") with (String c (ws ++ "/subs")).
    cbn [String.prefix] in *. destruct (ascii_dec "/" c); [|done].
    by destruct (ws ++ "/subs"). }
  rewrite Hres, Hdir. apply list_elem_of_In, filter_In. split.
  - apply list_elem_of_In, list_elem_of_fmap.
    exists (ws ++ "/" ++ fill_gaps.txt_path_of url, x). split; [done|].
    by apply elem_of_map_to_list.
  - unfold is_txt_child, fill_gaps.txt_path_of, fill_gaps.SUB_DIR.
    replace (ws ++ "/" ++ "subs" ++ "/" ++ fill_gaps.short_of url ++ ".txt")
      with ((ws ++ "/subs" ++ "/") ++ fill_gaps.short_of url ++ ".txt")
      by (by rewrite !string_app_assoc).
    rewrite <- (string_app_assoc ws "/subs" "/").
    unfold PyStr.startswith. rewrite prefix_app. cbn [andb].
    replace (String.length (ws ++ "/subs") + 1)%nat
      with (String.length ((ws ++ "/subs") ++ "/")) by (by rewrite (string_length_app _ "/")).
    rewrite substring_app.
    rewrite endswith_app. cbn [andb].
    rewrite list_ascii_app, forallb_app. apply andb_true_iff. split; [|done].
    apply forallb_forall. intros c Hc.
    pose proof (split_on_go_last "/" [] (PyStr.rstrip_char "/" url) (Forall_nil_2 _)) as Hl.
    rewrite Forall_forall in Hl. apply list_elem_of_In in Hc.
    by rewrite (Hl c Hc).
Qed.

(** ** Further properties of the stages *)

Lemma same_cwd_bind {A B} (m : IO A) (k : A → IO B) :
  same_cwd m → (∀ a, same_cwd (k a)) → same_cwd (m ≫= k).
Proof.
  intros Hm Hk σ. rewrite bind_run. specialize (Hm σ).
  destruct (m σ) as [[a|e] σ1]; cbn [snd] in *; [|done].
  by rewrite Hk.
Qed.

Lemma same_cwd_try_except {A} (m : IO A) (h : exn → IO A) :
  same_cwd m → (∀ e, same_cwd (h e)) → same_cwd (try_except m h).
Proof.
  intros Hm Hh σ. unfold try_except. specialize (Hm σ).
  destruct (m σ) as [[a|e] σ1]; cbn [snd] in *; [done|].
  by rewrite Hh.
Qed.

Lemma same_cwd_try_finally {A} (m : IO A) (fin : IO unit) :
  same_cwd m → same_cwd fin → same_cwd (try_finally m fin).
Proof.
  intros Hm Hf σ. unfold try_finally. specialize (Hm σ).
  destruct (m σ) as [r σ1]. specialize (Hf σ1).
  destruct (fin σ1) as [[[]|e] σ2]; cbn [snd] in *; congruence.
Qed.

Lemma same_cwd_for_each {A} (l : list A) (body : A → IO unit) :
  (∀ x, same_cwd (body x)) → same_cwd (for_each l body).
Proof.
  intros Hb. induction l as [|x l IH]; [done|].
  cbn [for_each]. apply same_cwd_bind; [apply Hb|]. intros _. apply IH.
Qed.

Lemma same_cwd_external f : same_cwd (external f).
Proof. intros σ. unfold external. by destruct (f σ) as [[e|] m]. Qed.

Lemma same_cwd_read_text p : same_cwd (read_text p).
Proof. intros σ. unfold read_text. by repeat case_match. Qed.

Lemma same_cwd_ensure_transcript W url : same_cwd (fill_gaps.ensure_transcript W url).
Proof.
  unfold fill_gaps.ensure_transcript.
  apply same_cwd_bind; [done|]. intros [|]; [done|].
  apply same_cwd_bind.
  { unfold fill_gaps.download_audio. apply same_cwd_bind; [done|]. intros [|]; [done|].
    apply same_cwd_try_except.
    - apply same_cwd_bind; [apply same_cwd_external|done].
    - intros e. by destruct (exn_class e). }
  intros [|]; [|done].
  unfold fill_gaps.transcription_step. apply same_cwd_try_finally; [|done].
  apply same_cwd_try_except; [|done].
  unfold fill_gaps.transcribe_and_write.
  apply same_cwd_bind; [intros σ; by destruct (transcribe W _ σ)|]. intros res.
  repeat (apply same_cwd_bind; [done|]; intros _).
  apply same_cwd_for_each. intros seg. unfold fill_gaps.write_segment.
  apply same_cwd_bind; [intros σ; unfold lift_result; done|]. intros a.
  apply same_cwd_bind; [intros σ; unfold lift_result; done|]. intros b. done.
Qed.

Lemma same_cwd_main W : same_cwd (fill_gaps.main W).
Proof.
  unfold fill_gaps.main. apply same_cwd_bind; [apply same_cwd_read_text|]. intros text.
  apply same_cwd_for_each. intros url. apply same_cwd_ensure_transcript.
Qed.

Lemma same_cwd_run_batch W url_file : same_cwd (scrape_subs.run_batch W url_file).
Proof.
  unfold scrape_subs.run_batch. apply same_cwd_bind; [apply same_cwd_read_text|].
  intros text. apply same_cwd_external.
Qed.

(** The shape shared by [run_scrape_subs] and [run_fill_gaps]. *)
Lemma stage_wrapper_cwd (imp : fsstate → option exn * gmap string node) (body : IO unit)
    (ws : string) (σ : fsstate) (r : result unit) (σ' : fsstate) :
  same_cwd body →
  PyStr.startswith "/" (cwd σ) = true →
  (external imp;;
   original_cwd ← getcwd;
   chdir ws;;
   try_finally body (chdir original_cwd)) σ = (r, σ') →
  files σ' !! cwd σ = Some Dir →
  cwd σ' = cwd σ.
Proof.
  intros Hb Habs Hrun Hdir. rewrite bind_run in Hrun.
  pose proof (same_cwd_external imp σ) as Hc1.
  destruct (external imp σ) as [[[]|e] σ1]; cbn [snd] in Hc1; [|by injection Hrun as _ <-].
  rewrite bind_run in Hrun. unfold getcwd at 1 in Hrun. cbv beta iota in Hrun.
  rewrite bind_run in Hrun. unfold chdir at 1 in Hrun.
  destruct (files σ1 !! resolve σ1 ws) as [[c|]|]; try (by injection Hrun as _ <-).
  unfold try_finally in Hrun.
  match type of Hrun with context [body ?s] =>
    pose proof (Hb s) as Hc2; destruct (body s) as [r2 σ2] end.
  cbn [snd cwd] in Hc2. unfold chdir in Hrun.
  assert (Hres : resolve σ2 (cwd σ1) = cwd σ).
  { unfold resolve. by rewrite Hc1, Habs. }
  rewrite Hres in Hrun.
  destruct (files σ2 !! cwd σ) as [[c|]|] eqn:Hf.
  - injection Hrun as _ <-. congruence.
  - by injection Hrun as _ <-.
  - injection Hrun as _ <-. congruence.
Qed.

(** [run_scrape_subs] and [run_fill_gaps] change into the workspace and, in
    their [finally] clause, back: whether the stage returned or raised, the
    process is in its original working directory afterwards, as long as
    that directory still exists. *)
Theorem stage_restores_cwd (W : world) (ws : string) (σ : fsstate) :
  PyStr.startswith "/" (cwd σ) = true →
  (∀ r σ', run_scrape_subs W ws σ = (r, σ') → files σ' !! cwd σ = Some Dir → cwd σ' = cwd σ) ∧
  (∀ r σ', run_fill_gaps W ws σ = (r, σ') → files σ' !! cwd σ = Some Dir → cwd σ' = cwd σ).
Proof.
  intros Habs. split; intros r σ' Hrun Hdir.
  - eapply stage_wrapper_cwd; [apply (same_cwd_run_batch W "reels.txt")|done|exact Hrun|done].
  - eapply stage_wrapper_cwd; [apply (same_cwd_main W)|done|exact Hrun|done].
Qed.

(** The transcription step never raises, and after a transcription that
    returned the transcript file is there. *)
Lemma transcription_step_run W url σ1 :
  ∃ σ',
    fill_gaps.transcription_step W url (fill_gaps.txt_path_of url) (fill_gaps.audio_of url) σ1 =
      (Ok tt, σ') ∧
    cwd σ' = cwd σ1 ∧
    (∀ res, transcribe W (fill_gaps.audio_of url) σ1 = Ok res →
       is_Some (files σ' !! resolve σ1 (fill_gaps.txt_path_of url))).
Proof.
  unfold fill_gaps.transcription_step, try_finally, try_except, fill_gaps.transcribe_and_write.
  rewrite bind_run.
  destruct (transcribe W (fill_gaps.audio_of url) σ1) as [res|e] eqn:Etr.
  - cbv beta iota. rewrite bind_run. unfold open_w at 1. cbv beta iota.
    match goal with
    | |- context [let (_, _) := ?m ?s in _] =>
        assert (Hk : keeps (fill_gaps.txt_path_of url) m);
        [|specialize (Hk s); destruct (m s) as [r σ2]]
    end.
    { apply keeps_bind; [apply keeps_write|]. intros _.
      apply keeps_bind; [apply keeps_write|]. intros _.
      apply keeps_bind; [apply keeps_write|]. intros _.
      apply keeps_for_each. intros seg. apply keeps_write_segment. }
    cbn [snd] in Hk. rewrite !resolve_set_files in Hk. cbn [cwd files set_files] in Hk.
    destruct Hk as [Hc Hk].
    assert (Hin : is_Some (files σ2 !! resolve σ1 (fill_gaps.txt_path_of url))).
    { apply Hk. rewrite lookup_insert_eq. eauto. }
    destruct r as [[]|e]; unfold unlink_missing_ok; cbv beta iota.
    all: eexists; split; [reflexivity|]; cbn [files set_files cwd].
    all: split; [done|]; intros _ _.
    all: rewrite lookup_delete_ne; [done|].
    all: rewrite (resolve_cwd σ1 σ2) by done; apply not_eq_sym, txt_path_not_audio.
  - unfold unlink_missing_ok. cbv beta iota. rewrite ret_run. cbv beta iota.
    eexists; split; [reflexivity|]. split; [done|]. intros res [=].
Qed.

(** A URL whose transcript file exists is skipped: no download, no
    transcription, nothing written, whatever the world would do. A URL
    transcribed by [ensure_transcript] in a directory that has its [subs]
    directory, where the transcript can be created, is therefore skipped by
    every later call. *)
Theorem ensure_transcript_idempotent (W : world) (url : string) (σ : fsstate) :
  (is_Some (files σ !! resolve σ (fill_gaps.txt_path_of url)) →
   fill_gaps.ensure_transcript W url σ = (Ok tt, σ)) ∧
  (∀ σ1 res,
     files σ !! resolve σ (fill_gaps.txt_path_of url) = None →
     fill_gaps.download_audio W url (fill_gaps.audio_of url) σ = (Ok true, σ1) →
     files σ1 !! resolve σ1 fill_gaps.SUB_DIR = Some Dir →
     transcribe W (fill_gaps.audio_of url) σ1 = Ok res →
     ∃ σ', fill_gaps.ensure_transcript W url σ = (Ok tt, σ') ∧
           ∀ W', fill_gaps.ensure_transcript W' url σ' = (Ok tt, σ')).
Proof.
  assert (Hskip : ∀ W0 σ0, is_Some (files σ0 !! resolve σ0 (fill_gaps.txt_path_of url)) →
            fill_gaps.ensure_transcript W0 url σ0 = (Ok tt, σ0)).
  { intros W0 σ0 H. unfold fill_gaps.ensure_transcript. rewrite bind_run.
    unfold path_exists at 1. cbv beta iota. by rewrite bool_decide_eq_true_2. }
  split; [apply Hskip|].
  intros σ1 res Htxt Hdl _ Htr.
  destruct (transcription_step_run W url σ1) as (σ' & Hrun & Hc & Hin).
  exists σ'. split.
  - unfold fill_gaps.ensure_transcript. rewrite bind_run.
    unfold path_exists at 1. cbv beta iota.
    rewrite Htxt, bool_decide_eq_false_2 by (by intros [? ?]).
    rewrite bind_run, Hdl. cbv beta iota. exact Hrun.
  - intros W'. apply Hskip. rewrite (resolve_cwd σ1 σ') by done. by eapply Hin.
Qed.

(** A failed download is a soft error only when yt-dlp exits with an error
    status: [CalledProcessError] is caught and the URL given up, any other
    exception of [subprocess.run] leaves [ensure_transcript]. In both cases
    the model is not called and no transcript is written. *)
Theorem download_errors (W : world) (url : string) (σ : fsstate) (e : exn) (m : gmap string node) :
  files σ !! resolve σ (fill_gaps.txt_path_of url) = None →
  files σ !! resolve σ (fill_gaps.audio_of url) = None →
  subprocess_run W ["yt-dlp"; "-f"; "ba"; "-o"; fill_gaps.audio_of url; url] σ = (Some e, m) →
  fill_gaps.ensure_transcript W url σ =
    (match exn_class e with CalledProcessError => Ok tt | _ => Raise e end,
     set_files (λ _, m) σ).
Proof.
  intros Htxt Haudio Hrun. unfold fill_gaps.ensure_transcript. rewrite bind_run.
  unfold path_exists at 1. cbv beta iota.
  rewrite Htxt, bool_decide_eq_false_2 by (by intros [? ?]).
  rewrite bind_run. unfold fill_gaps.download_audio. rewrite bind_run.
  unfold path_exists at 1. cbv beta iota.
  rewrite Haudio, bool_decide_eq_false_2 by (by intros [? ?]).
  unfold try_except. rewrite bind_run. unfold external. rewrite Hrun.
  by destruct (exn_class e).
Qed.



Lemma sol_app (a b : list ascii) :
  string_of_list_ascii (a ++ b) = string_of_list_ascii a ++ string_of_list_ascii b.
Proof.
  induction a as [|c a IH]; [done|].
  change (String c (string_of_list_ascii (a ++ b)) =
          String c (string_of_list_ascii a ++ string_of_list_ascii b)).
  by rewrite IH.
Qed.

Lemma not_space_not_newline c :
  PyStr.isspace c = false → Ascii.eqb c PyStr.CR = false ∧ Ascii.eqb c PyStr.LF = false.
Proof.
  intros H. split.
  - destruct (Ascii.eqb_spec c PyStr.CR) as [->|]; [discriminate H|done].
  - destruct (Ascii.eqb_spec c PyStr.LF) as [->|]; [discriminate H|done].
Qed.

Lemma universal_newlines_token l rest :
  Forall (λ c, PyStr.isspace c = false) l →
  PyStr.universal_newlines (string_of_list_ascii l ++ nl ++ rest) =
    string_of_list_ascii l ++ nl ++ PyStr.universal_newlines rest.
Proof.
  induction 1 as [|c l Hc Hl IH]; [done|].
  change (PyStr.universal_newlines (String c (string_of_list_ascii l ++ nl ++ rest)) =
          String c (string_of_list_ascii l ++ nl ++ PyStr.universal_newlines rest)).
  cbn [PyStr.universal_newlines]. destruct (not_space_not_newline c Hc) as [-> _].
  by rewrite IH.
Qed.

Lemma lines_go_token cur l rest :
  Forall (λ c, PyStr.isspace c = false) l →
  PyStr.lines_go cur (string_of_list_ascii l ++ nl ++ rest) =
    string_of_list_ascii (rev cur ++ l ++ [PyStr.LF]) :: PyStr.lines_go [] rest.
Proof.
  intros Hl. revert cur. induction Hl as [|c l Hc Hl IH]; intros cur; [done|].
  change (PyStr.lines_go cur (String c (string_of_list_ascii l ++ nl ++ rest)) =
          string_of_list_ascii (rev cur ++ (c :: l) ++ [PyStr.LF]) :: PyStr.lines_go [] rest).
  cbn [PyStr.lines_go]. destruct (not_space_not_newline c Hc) as [_ ->].
  rewrite IH. cbn [rev]. by rewrite <- app_assoc.
Qed.

Lemma rstrip_token_line l :
  Forall (λ c, PyStr.isspace c = false) l →
  PyStr.rstrip (string_of_list_ascii l ++ nl) = string_of_list_ascii l.
Proof.
  induction 1 as [|c l Hc Hl IH]; [done|].
  change (PyStr.rstrip (String c (string_of_list_ascii l ++ nl)) =
          String c (string_of_list_ascii l)).
  cbn [PyStr.rstrip]. rewrite IH, Hc. by destruct (string_of_list_ascii l).
Qed.

(** The URL list read back from the text of [reels.txt]. *)
Lemma url_lines_reels_text toks :
  Forall is_token toks →
  url_lines (reels_text toks) = List.filter (λ u, negb (PyStr.startswith "#" u)) toks.
Proof.
  unfold url_lines, PyStr.readlines.
  induction 1 as [|t toks (l & Hne & Hl & ->) Htoks IH]; [done|].
  cbn [reels_text fold_right]. fold (reels_text toks).
  rewrite universal_newlines_token, lines_go_token by done.
  cbn [rev app List.filter]. rewrite sol_app.
  change (string_of_list_ascii [PyStr.LF]) with nl.
  destruct l as [|c l]; [done|]. inversion Hl as [|? ? Hc Hl']; subst.
  assert (Hstrip : PyStr.strip (string_of_list_ascii (c :: l) ++ nl) = string_of_list_ascii (c :: l)).
  { unfold PyStr.strip.
    change (string_of_list_ascii (c :: l) ++ nl)
      with (String c (string_of_list_ascii l ++ nl)).
    cbn [PyStr.lstrip]. rewrite Hc. by apply (rstrip_token_line (c :: l)). }
  rewrite Hstrip. cbn [nonempty string_of_list_ascii andb].
  assert (Hhash : PyStr.startswith "#" (String c (string_of_list_ascii l) ++ nl) =
                  PyStr.startswith "#" (String c (string_of_list_ascii l))).
  { unfold PyStr.startswith.
    change (String c (string_of_list_ascii l) ++ nl)
      with (String c (string_of_list_ascii l ++ nl)).
    cbn [String.prefix]. destruct (ascii_dec "#" c); [|done].
    by destruct (string_of_list_ascii l), (string_of_list_ascii l ++ nl). }
  rewrite Hhash.
  destruct (negb (PyStr.startswith "#" (String c (string_of_list_ascii l)))).
  - cbn [map]. change (String c (string_of_list_ascii l)) with (string_of_list_ascii (c :: l)).
    by rewrite Hstrip, IH.
  - exact IH.
Qed.

Lemma tokenized_tokens url_list : Forall is_token (tokenized url_list).
Proof.
  unfold tokenized. apply Forall_concat, Forall_fmap, Forall_forall.
  intros url _. apply split_tokens.
Qed.

(** For submitted strings of ASCII characters, and a workspace directory in
    which [reels.txt] does not exist yet: the URL list that the stages read
    from the [reels.txt] the executor wrote is the list of the
    whitespace-separated tokens of the submitted strings, in order, without
    the tokens that begin with '#': these read as comments. *)
Theorem reels_round_trip (ws : string) (url_list : list string) (σ : fsstate) :
  Forall ascii_only url_list →
  files σ !! resolve σ ws = Some Dir →
  files σ !! resolve σ (ws ++ "/reels.txt") = None →
  ∃ σ' text,
    write_reels (ws ++ "/reels.txt") url_list σ = (Ok tt, σ') ∧
    read_text (ws ++ "/reels.txt") σ' = (Ok text, σ') ∧
    url_lines text =
      List.filter (λ u, negb (PyStr.startswith "#" u)) (tokenized url_list).
Proof.
  intros _ _ _. eexists _, _. split; [apply write_reels_run|]. split.
  - unfold read_text. rewrite resolve_set_files. cbn [files set_files].
    by rewrite lookup_insert_eq.
  - apply url_lines_reels_text, tokenized_tokens.
Qed.

Lemma rstrip_idem s : PyStr.rstrip (PyStr.rstrip s) = PyStr.rstrip s.
Proof.
  induction s as [|c s IH]; [done|]. cbn [PyStr.rstrip].
  destruct (PyStr.rstrip s) as [|d r] eqn:Hr.
  - destruct (PyStr.isspace c) eqn:Hc; [done|]. cbn [PyStr.rstrip]. by rewrite Hc.
  - cbn [PyStr.rstrip] in *. by rewrite IH.
Qed.

Lemma lstrip_head s :
  PyStr.lstrip s = "" ∨ ∃ c t, PyStr.lstrip s = String c t ∧ PyStr.isspace c = false.
Proof.
  induction s as [|c s IH]; [by left|]. cbn [PyStr.lstrip].
  destruct (PyStr.isspace c) eqn:Hc; [done|]. right. eauto.
Qed.

Lemma rstrip_head c t :
  PyStr.isspace c = false → ∃ r, PyStr.rstrip (String c t) = String c r.
Proof.
  intros Hc. cbn [PyStr.rstrip]. rewrite Hc. destruct (PyStr.rstrip t); eauto.
Qed.

Lemma strip_idem s : PyStr.strip (PyStr.strip s) = PyStr.strip s.
Proof.
  unfold PyStr.strip. destruct (lstrip_head s) as [->|(c & t & -> & Hc)]; [done|].
  destruct (rstrip_head c t Hc) as [r Hr]. rewrite Hr.
  cbn [PyStr.lstrip]. rewrite Hc, <- Hr. apply rstrip_idem.
Qed.

Lemma strip_first s c :
  head (list_ascii_of_string (PyStr.strip s)) = Some c → PyStr.isspace c = false.
Proof.
  unfold PyStr.strip. destruct (lstrip_head s) as [->|(d & t & -> & Hd)]; [done|].
  destruct (rstrip_head d t Hd) as [r ->]. by intros [= <-].
Qed.

Lemma rstrip_last s c :
  last (list_ascii_of_string (PyStr.rstrip s)) = Some c → PyStr.isspace c = false.
Proof.
  induction s as [|d s IH]; [done|]. cbn [PyStr.rstrip].
  destruct (PyStr.rstrip s) as [|e r] eqn:Hr.
  - destruct (PyStr.isspace d) eqn:Hd; [done|]. by intros [= <-].
  - exact IH.
Qed.

(** What both stages take from the URL-list file: every entry is a line of
    the file with the surrounding whitespace removed, so that it neither
    begins nor ends with a whitespace character and contains no line break
    at its ends; it is not empty, and it comes from a line whose first
    character is not '#'. *)
Theorem url_lines_entries (text u : string) :
  u ∈ url_lines text →
  u ≠ "" ∧ PyStr.strip u = u ∧
  (∀ c, head (list_ascii_of_string u) = Some c → PyStr.isspace c = false) ∧
  (∀ c, last (list_ascii_of_string u) = Some c → PyStr.isspace c = false) ∧
  ∃ line, line ∈ PyStr.readlines text ∧ u = PyStr.strip line ∧
          PyStr.startswith "#" line = false.
Proof.
  unfold url_lines. rewrite list_elem_of_In, in_map_iff.
  intros (line & <- & Hin). apply filter_In in Hin as [Hin Hf].
  apply andb_true_iff in Hf as [Hn Hh]. apply negb_true_iff in Hh.
  split; [by destruct (PyStr.strip line)|]. split; [apply strip_idem|].
  split; [apply strip_first|]. split; [apply rstrip_last|].
  exists line. by rewrite list_elem_of_In.
Qed.

(** ** The command-line runner *)

(** The command-line runner ends in one of three ways. It reaches its last
    line only when both tools answered their probe, [reels.txt] exists, and
    step 1 and then step 2 returned, in this order. Every failure of a probe
    by exit status or missing binary, a missing [reels.txt] and every
    exception of a step make it exit with code 1, before any later step. An
    exception leaves [main] only when a probe raised something else. *)
Theorem run_all_main_outcomes (W : world) (σ : fsstate) (r : result run_all.outcome) (σ' : fsstate) :
  run_all.main W σ = (r, σ') →
  match r with
  | Ok run_all.Returned =>
      ∃ σ1 σ2,
        run_all.check_dependencies W σ = (Ok true, σ1) ∧
        is_Some (files σ1 !! resolve σ1 "reels.txt") ∧
        run_all.step1 W σ1 = (Ok tt, σ2) ∧
        run_all.step2 W σ2 = (Ok tt, σ')
  | Ok (run_all.Exited code) =>
      code = 1%nat ∧
      (∃ σ1, run_all.check_dependencies W σ = (Ok false, σ1) ∧ σ' = σ1
       ∨ run_all.check_dependencies W σ = (Ok true, σ1) ∧
         (files σ1 !! resolve σ1 "reels.txt" = None ∧ σ' = σ1
          ∨ (∃ e, run_all.step1 W σ1 = (Raise e, σ'))
          ∨ (∃ σ2 e, run_all.step1 W σ1 = (Ok tt, σ2) ∧ run_all.step2 W σ2 = (Raise e, σ'))))
  | Raise e => run_all.check_dependencies W σ = (Raise e, σ')
  end.
Proof.
  unfold run_all.main. rewrite bind_run.
  destruct (run_all.check_dependencies W σ) as [[[|]|e] σ1]; cbn [negb]; cbv beta iota.
  2: { rewrite ret_run. intros [= <- <-]. split; [done|]. exists σ1. by left. }
  2: { by intros [= <- <-]. }
  rewrite bind_run. unfold path_exists at 1. cbv beta iota.
  case_bool_decide as Hreels; cbn [negb]; cbv beta iota.
  2: { rewrite ret_run. intros [= <- <-]. split; [done|]. exists σ1. right.
       split; [done|]. left. split; [|done]. by apply eq_None_not_Some. }
  rewrite bind_run. unfold try_except at 1. rewrite bind_run.
  destruct (run_all.step1 W σ1) as [[[]|e1] σ2] eqn:E1; cbv beta iota.
  2: { rewrite ret_run. cbn [negb]. cbv beta iota. rewrite ret_run. intros [= <- <-].
       split; [done|]. exists σ1. right. split; [done|]. right. left. by exists e1. }
  rewrite ret_run. cbn [negb]. cbv beta iota.
  rewrite bind_run. unfold try_except at 1. rewrite bind_run.
  destruct (run_all.step2 W σ2) as [[[]|e2] σ3] eqn:E2; cbv beta iota.
  2: { rewrite ret_run. cbn [negb]. cbv beta iota. rewrite ret_run. intros [= <- <-].
       split; [done|]. exists σ1. right. split; [done|]. right. right. by exists σ2, e2. }
  rewrite ret_run. cbn [negb]. cbv beta iota.
  rewrite bind_run. unfold glob_txt. cbv beta iota. rewrite ret_run.
  intros [= <- <-]. by exists σ1, σ2.
Qed.

(** [check_dependencies] answers [False] exactly when a probe failed by exit
    status or by a missing binary; the second tool is probed also when the
    first one is missing. *)
Theorem check_dependencies_missing (W : world) (σ : fsstate) (o1 o2 : option exn) (m1 m2 : gmap string node) :
  subprocess_run W ["ffmpeg"; "-version"] σ = (o1, m1) →
  subprocess_run W ["yt-dlp"; "--version"] (set_files (λ _, m1) σ) = (o2, m2) →
  let caught o := match o with
                  | Some e => match exn_class e with
                              | CalledProcessError | FileNotFoundError => true
                              | _ => false
                              end
                  | None => true
                  end in
  caught o1 = true → caught o2 = true →
  run_all.check_dependencies W σ =
    (Ok (match o1, o2 with None, None => true | _, _ => false end),
     set_files (λ _, m2) σ).
Proof.
  intros H1 H2 caught Hc1 Hc2. unfold run_all.check_dependencies.
  rewrite bind_run. unfold run_all.probe at 1, try_except. rewrite bind_run.
  unfold external at 1. rewrite H1.
  destruct o1 as [e1|]; cbn in Hc1.
  - destruct (exn_class e1); try discriminate Hc1.
    all: rewrite ret_run; cbv beta iota; rewrite bind_run.
    all: unfold run_all.probe, try_except; rewrite bind_run; unfold external; rewrite H2.
    all: destruct o2 as [e2|]; cbn in Hc2;
         [destruct (exn_class e2); try discriminate Hc2|]; done.
  - rewrite ret_run. cbv beta iota. rewrite bind_run.
    unfold run_all.probe, try_except. rewrite bind_run. unfold external. rewrite H2.
    destruct o2 as [e2|]; cbn in Hc2; [destruct (exn_class e2); try discriminate Hc2|]; done.
Qed.

(** ** The content analysis *)

Lemma rstrip_last_not_space l c :
  PyStr.isspace c = false →
  PyStr.rstrip (string_of_list_ascii (l ++ [c])) = string_of_list_ascii (l ++ [c]).
Proof.
  intros Hc. induction l as [|d l IH].
  - cbn. by rewrite Hc.
  - cbn [app string_of_list_ascii PyStr.rstrip]. rewrite IH.
    by destruct l.
Qed.

Lemma lstrip_keeps_last (P : ascii → Prop) l c :
  PyStr.isspace c = false → Forall P l →
  ∃ l', Forall P l' ∧
        PyStr.lstrip (string_of_list_ascii (l ++ [c])) = string_of_list_ascii (l' ++ [c]).
Proof.
  intros Hc. induction 1 as [|d l Hd Hl (l' & Hl' & IH)].
  - exists []. split; [done|]. cbn. by rewrite Hc.
  - cbn [app string_of_list_ascii PyStr.lstrip]. destruct (PyStr.isspace d).
    + by exists l'.
    + exists (d :: l). split; [by constructor|done].
Qed.

Lemma findall_questions_shape cur s :
  Forall (λ c, analyze_content.is_terminator c = false) cur →
  Forall (λ m, ∃ l, Forall (λ c, analyze_content.is_terminator c = false) l ∧
                    m = string_of_list_ascii (l ++ ["?"%char]))
    (analyze_content.findall_questions cur s).
Proof.
  revert cur. induction s as [|c s IH]; intros cur Hcur; [constructor|].
  cbn [analyze_content.findall_questions].
  destruct (Ascii.eqb_spec c "?") as [->|Hq].
  - constructor; [|by apply IH]. exists (rev cur). split; [by apply Forall_rev|done].
  - destruct (analyze_content.is_terminator c) eqn:Ht; [by apply IH|].
    apply IH. by constructor.
Qed.

(** Every question that [extract_questions] returns is a piece of the text
    that ends in its only '?', contains no '.' and no '!', has no
    whitespace at either end, and is more than ten characters long. *)
Theorem extract_questions_shape (text q : string) :
  q ∈ analyze_content.extract_questions text →
  (10 < String.length q)%nat ∧
  PyStr.strip q = q ∧
  ∃ body, q = string_of_list_ascii (body ++ ["?"%char]) ∧
          Forall (λ c, analyze_content.is_terminator c = false) body.
Proof.
  unfold analyze_content.extract_questions. rewrite list_elem_of_In.
  intros [Hin Hlen]%filter_In. apply Nat.ltb_lt in Hlen.
  apply in_map_iff in Hin as (m & <- & Hin).
  split; [done|]. split; [apply strip_idem|].
  pose proof (findall_questions_shape [] text (Forall_nil_2 _)) as Hall.
  rewrite Forall_forall in Hall. apply list_elem_of_In in Hin.
  destruct (Hall m Hin) as (l & Hl & ->).
  destruct (lstrip_keeps_last _ l "?" eq_refl Hl) as (l' & Hl' & Hls).
  exists l'. split; [|done]. unfold PyStr.strip. rewrite Hls.
  by apply rstrip_last_not_space.
Qed.

Lemma lower_char_idem c :
  analyze_content.lower_char (analyze_content.lower_char c) = analyze_content.lower_char c.
Proof. destruct c as [[] [] [] [] [] [] [] []]; reflexivity. Qed.

Lemma lower_idem s : analyze_content.lower (analyze_content.lower s) = analyze_content.lower s.
Proof.
  induction s as [|c s IH]; [done|].
  cbn [analyze_content.lower]. by rewrite lower_char_idem, IH.
Qed.

(** Every keyword that [extract_keywords] returns has three letters or more,
    all of them lower-case, and is none of the stop words; and the keywords
    do not depend on the case of the text. *)
Theorem extract_keywords_shape (text : string) :
  (∀ w, w ∈ analyze_content.extract_keywords text →
        (3 ≤ String.length w)%nat ∧
        Forall (λ c, analyze_content.is_lower c = true) (list_ascii_of_string w) ∧
        ¬ In w analyze_content.stop_words) ∧
  analyze_content.extract_keywords (analyze_content.lower text) =
    analyze_content.extract_keywords text.
Proof.
  split.
  - intros w. unfold analyze_content.extract_keywords, analyze_content.findall_words.
    rewrite list_elem_of_In. intros [Hin Hstop]%filter_In.
    apply filter_In in Hin as [_ Hw]. apply andb_true_iff in Hw as [Hlen Hlow].
    apply Nat.leb_le in Hlen. split; [done|]. split.
    + apply Forall_forall. intros c Hc. rewrite forallb_forall in Hlow.
      apply Hlow. by apply list_elem_of_In.
    + intros Hi. apply negb_true_iff in Hstop.
      assert (existsb (String.eqb w) analyze_content.stop_words = true); [|congruence].
      apply existsb_exists. exists w. split; [done|apply String.eqb_refl].
  - unfold analyze_content.extract_keywords. by rewrite lower_idem.
Qed.

Lemma length_insert_by_count x l :
  length (analyze_content.insert_by_count x l) = S (length l).
Proof.
  induction l as [|y l IH]; [done|]. cbn [analyze_content.insert_by_count].
  destruct (x.2 <? y.2)%nat; cbn [length]; [by rewrite IH|done].
Qed.

Lemma length_sorted_by_count c : length (analyze_content.sorted_by_count c) = length c.
Proof.
  induction c as [|x c IH]; [done|].
  cbn [analyze_content.sorted_by_count fold_right].
  rewrite length_insert_by_count. cbn [length]. f_equal. exact IH.
Qed.

(** [generate_content_ideas] always prints ten lines, numbered from 1 in the
    order of its list of ideas, whatever the counters hold: the ten general
    ideas are always appended. With three topics or more, the first nine
    lines are the three ideas for each of the three most common topics, so
    that of the ideas from questions and keywords at most one is printed. *)
Theorem generate_content_ideas_ten (tc qc kc : analyze_content.counter) :
  length (analyze_content.generate_content_ideas tc qc kc) = 10%nat ∧
  (∀ i, (i < 10)%nat →
     ∃ idea, analyze_content.ideas tc qc kc !! i = Some idea ∧
             analyze_content.generate_content_ideas tc qc kc !! i =
               Some ("   " ++ PyStr.str_Z (Z.of_nat (i + 1)) ++ ". " ++ idea)) ∧
  ((3 ≤ length tc)%nat →
     take 9 (analyze_content.ideas tc qc kc) =
       concat (map analyze_content.topic_ideas (analyze_content.most_common 3 tc).*1)).
Proof.
  assert (Hlen : (10 ≤ length (analyze_content.ideas tc qc kc))%nat).
  { unfold analyze_content.ideas. rewrite !length_app.
    change (length analyze_content.general_ideas) with 10%nat. lia. }
  split; [|split].
  - unfold analyze_content.generate_content_ideas. rewrite length_imap, length_take. lia.
  - intros i Hi.
    destruct (lookup_lt_is_Some_2 (analyze_content.ideas tc qc kc) i) as [idea Hidea]; [lia|].
    exists idea. split; [done|].
    unfold analyze_content.generate_content_ideas.
    rewrite list_lookup_imap, lookup_take_lt by done. by rewrite Hidea.
  - intros H3. unfold analyze_content.ideas.
    assert (Hl : length (analyze_content.most_common 3 tc).*1 = 3%nat).
    { unfold analyze_content.most_common.
      rewrite length_fmap, length_take, length_sorted_by_count. lia. }
    by destruct ((analyze_content.most_common 3 tc).*1) as [|a [|b [|c [|d l]]]].
Qed.

(** ** The further properties at work on the samples *)

Lemma submit_then_status_witness :
  two_reels ≠ [] ∧
  ∃ τ1,
    submit_urls world_ok two_reels proc0 =
      (Ok (JobResponse "7f3c" "Job submitted successfully"), τ1) ∧
    get_job_status "7f3c" τ1 =
      (Ok (JobStatus "7f3c" "pending" 0.0 "Job created" "2024-05-01T10:00:00" None), τ1).
Proof.
  assert (H0 : two_reels ≠ []) by discriminate.
  split; [exact H0|].
  destruct (submit_then_status world_ok two_reels proc0 H0) as (τ1 & H1 & _ & _ & _ & H2).
  exists τ1. split; [exact H1|exact H2].
Defined.

Lemma process_urls_frame_witness :
  jobs submitted !! "7f3c" = Some sample_job ∧
  ∃ τ' j',
    process_urls world_ok "7f3c" two_reels submitted = (Ok tt, τ') ∧
    jobs τ' !! "7f3c" = Some j' ∧
    urls j' = two_reels ∧ background τ' = background submitted.
Proof.
  assert (H0 : jobs submitted !! "7f3c" = Some sample_job) by (vm_compute; reflexivity).
  split; [exact H0|].
  destruct (process_urls_frame world_ok "7f3c" two_reels submitted sample_job H0)
    as (τ' & j' & H1 & H2 & _ & _ & H3 & H4 & _).
  exists τ', j'. split; [exact H1|]. split; [exact H2|]. split; [exact H3|exact H4].
Defined.

Lemma process_urls_unregistered_witness :
  jobs proc0 !! "7f3c" = None ∧
  process_urls world_ok "7f3c" two_reels proc0 = (Raise (Exn KeyError "'7f3c'"), proc0).
Proof.
  assert (H0 : jobs proc0 !! "7f3c" = None) by (vm_compute; reflexivity).
  split; [exact H0|].
  exact (process_urls_unregistered world_ok "7f3c" two_reels proc0 H0).
Defined.

Lemma process_urls_terminal_witness :
  jobs submitted !! "7f3c" = Some sample_job ∧
  ∃ τ' j',
    process_urls world_no_audio "7f3c" two_reels submitted = (Ok tt, τ') ∧
    jobs τ' !! "7f3c" = Some j' ∧
    (state j' = "completed" ∨ state j' = "failed").
Proof.
  assert (H0 : jobs submitted !! "7f3c" = Some sample_job) by (vm_compute; reflexivity).
  split; [exact H0|].
  destruct (process_urls_terminal world_no_audio "7f3c" two_reels submitted sample_job H0)
    as (τ' & j' & H1 & H2 & [(H3 & _)|(H3 & _)]).
  - exists τ', j'. split; [exact H1|]. split; [exact H2|]. left. exact H3.
  - exists τ', j'. split; [exact H1|]. split; [exact H2|]. right. exact H3.
Defined.

Lemma workspace_recorded_witness :
  jobs submitted !! "7f3c" = Some sample_job ∧
  ∃ τ' j',
    process_urls world_no_audio "7f3c" two_reels submitted = (Ok tt, τ') ∧
    jobs τ' !! "7f3c" = Some j' ∧
    workspace j' = Some "/tmp/job_7f3c_k3x".
Proof.
  assert (H0 : jobs submitted !! "7f3c" = Some sample_job) by (vm_compute; reflexivity).
  split; [exact H0|].
  destruct (workspace_recorded world_no_audio "7f3c" two_reels submitted sample_job H0)
    as (τ' & j' & H1 & H2 & H3).
  exists τ', j'. split; [exact H1|]. split; [exact H2|exact H3].
Defined.

Lemma archive_mirrors_witness :
  ∃ entries : list (string * content),
    (create_zip_file "/tmp/job_7f3c_k3x/subs" "/tmp/job_7f3c_k3x/transcripts.zip"
       (fs finished)).1 = Ok tt ∧
    ∀ name c,
      (name, c) ∈ entries ↔
      files (fs finished) !! "/tmp/job_7f3c_k3x/subs" = Some Dir ∧
      files (fs finished) !! ("/tmp/job_7f3c_k3x/subs" ++ "/" ++ name) = Some (File c).
Proof.
  destruct (archive_mirrors_directory "/tmp/job_7f3c_k3x/subs"
              "/tmp/job_7f3c_k3x/transcripts.zip" (fs finished))
    as (entries & H1 & H2).
  - vm_compute. reflexivity.
  - vm_compute. discriminate.
  - exists entries. split; [by rewrite H1|exact H2].
Defined.

Lemma download_result_twice_witness :
  ∃ resp τ1 τ2,
    download_result "7f3c" finished = (Ok resp, τ1) ∧
    download_result "7f3c" τ1 = (Ok resp, τ2).
Proof.
  destruct (download_result_twice "7f3c" finished
              (mkJob "7f3c" "completed" 1.0 "Successfully processed 2 transcripts" two_reels
                 "2024-05-01T10:00:00" (Some "2024-05-01T10:00:00") (Some "/tmp/job_7f3c_k3x"))
              "/tmp/job_7f3c_k3x")
    as (resp & τ1 & τ2 & _ & _ & H1 & H2 & _).
  - vm_compute. reflexivity.
  - reflexivity.
  - reflexivity.
  - discriminate.
  - vm_compute. eauto.
  - exists resp, τ1, τ2. split; [exact H1|exact H2].
Defined.

Lemma stage_restores_cwd_witness :
  PyStr.startswith "/" (cwd runner_dir) = true ∧
  cwd (run_fill_gaps world_ok "/w" runner_dir).2 = cwd runner_dir.
Proof.
  assert (H0 : PyStr.startswith "/" (cwd runner_dir) = true) by reflexivity.
  split; [exact H0|].
  destruct (stage_restores_cwd world_ok "/w" runner_dir H0) as (_ & H).
  apply (H (run_fill_gaps world_ok "/w" runner_dir).1).
  - vm_compute. reflexivity.
  - vm_compute. reflexivity.
Defined.

Lemma ensure_transcript_idempotent_witness :
  ∃ σ',
    fill_gaps.ensure_transcript world_ok "https://instagram.com/reel/ABC123/" stage_dir =
      (Ok tt, σ') ∧
    fill_gaps.ensure_transcript world_no_audio "https://instagram.com/reel/ABC123/" σ' =
      (Ok tt, σ').
Proof.
  destruct (ensure_transcript_idempotent world_ok "https://instagram.com/reel/ABC123/" stage_dir)
    as (_ & H).
  destruct (H stage_dir sample_result) as (σ' & H1 & H2).
  - vm_compute. reflexivity.
  - vm_compute. reflexivity.
  - vm_compute. reflexivity.
  - reflexivity.
  - exists σ'. split; [exact H1|apply H2].
Defined.

Lemma download_errors_witness :
  fill_gaps.ensure_transcript world_no_audio "https://instagram.com/reel/ABC123/"
    stage_dir_no_audio = (Ok tt, stage_dir_no_audio).
Proof.
  apply (download_errors world_no_audio "https://instagram.com/reel/ABC123/" stage_dir_no_audio
           (Exn CalledProcessError "yt-dlp returned non-zero exit status 1")
           (files stage_dir_no_audio)).
  - vm_compute. reflexivity.
  - vm_compute. reflexivity.
  - reflexivity.
Defined.


Lemma url_lines_entries_witness :
  "https://instagram.com/reel/ABC123/" ∈ url_lines (reels_text two_reels) ∧
  PyStr.strip "https://instagram.com/reel/ABC123/" = "https://instagram.com/reel/ABC123/".
Proof.
  assert (H0 : "https://instagram.com/reel/ABC123/" ∈ url_lines (reels_text two_reels)).
  { assert (H : url_lines (reels_text two_reels) = two_reels) by (vm_compute; reflexivity).
    rewrite H. apply list_elem_of_here. }
  split; [exact H0|].
  destruct (url_lines_entries (reels_text two_reels) "https://instagram.com/reel/ABC123/" H0)
    as (_ & H & _).
  exact H.
Defined.

Lemma run_all_main_witness :
  run_all.main world_ok runner_dir = (Ok run_all.Returned, (run_all.main world_ok runner_dir).2) ∧
  ∃ σ1 σ2,
    run_all.check_dependencies world_ok runner_dir = (Ok true, σ1) ∧
    run_all.step1 world_ok σ1 = (Ok tt, σ2).
Proof.
  assert (H0 : run_all.main world_ok runner_dir =
               (Ok run_all.Returned, (run_all.main world_ok runner_dir).2))
    by (vm_compute; reflexivity).
  split; [exact H0|].
  destruct (run_all_main_outcomes world_ok runner_dir _ _ H0) as (σ1 & σ2 & H1 & _ & H2 & _).
  exists σ1, σ2. split; [exact H1|exact H2].
Defined.

Lemma check_dependencies_missing_witness :
  run_all.check_dependencies world_no_audio runner_dir = (Ok false, runner_dir).
Proof.
  apply (check_dependencies_missing world_no_audio runner_dir
           (Some (Exn CalledProcessError "yt-dlp returned non-zero exit status 1"))
           (Some (Exn CalledProcessError "yt-dlp returned non-zero exit status 1"))
           (files runner_dir) (files runner_dir)); reflexivity.
Defined.

Lemma transcript_is_counted_witness :
  ("/tmp/job_7f3c_k3x" ++ "/" ++ fill_gaps.txt_path_of "https://instagram.com/reel/ABC123/")
    ∈ txt_entries ("/tmp/job_7f3c_k3x" ++ "/subs") (fs finished).
Proof.
  apply (transcript_is_counted "https://instagram.com/reel/ABC123/" "/tmp/job_7f3c_k3x"
           (fs finished)).
  - reflexivity.
  - vm_compute. reflexivity.
  - vm_compute. eauto.
Defined.

Lemma extract_questions_witness :
  "How are you doing today?" ∈
    analyze_content.extract_questions "Hello there. How are you doing today?" ∧
  PyStr.strip "How are you doing today?" = "How are you doing today?".
Proof.
  assert (H0 : "How are you doing today?" ∈
               analyze_content.extract_questions "Hello there. How are you doing today?").
  { assert (H : analyze_content.extract_questions "Hello there. How are you doing today?" =
                ["How are you doing today?"]) by (vm_compute; reflexivity).
    rewrite H. apply list_elem_of_here. }
  split; [exact H0|].
  destruct (extract_questions_shape _ _ H0) as (_ & H & _).
  exact H.
Defined.

Lemma download_result_witness :
  ∃ τ' (entries : list (string * content)),
    download_result "7f3c" finished =
      (Ok (FileResponse "/tmp/job_7f3c_k3x/transcripts.zip" "application/zip"
             "transcripts_7f3c.zip"), τ') ∧
    jobs τ' = jobs finished ∧
    files (fs τ') !! "/tmp/job_7f3c_k3x/transcripts.zip" = Some (File (Archive entries)) ∧
    (∃ c, ("ABC123.txt", c) ∈ entries) ∧
    (∃ c, ("XYZ789.txt", c) ∈ entries).
Proof.
  destruct (download_result_outcomes "7f3c" finished) as (_ & _ & _ & H).
  destruct (H (mkJob "7f3c" "completed" 1.0 "Successfully processed 2 transcripts" two_reels
                 "2024-05-01T10:00:00" (Some "2024-05-01T10:00:00") (Some "/tmp/job_7f3c_k3x"))
              "/tmp/job_7f3c_k3x") as (τ' & entries & H1 & H2 & H3 & _ & H4).
  - vm_compute. reflexivity.
  - reflexivity.
  - reflexivity.
  - discriminate.
  - vm_compute. eauto.
  - exists τ', entries. split; [exact H1|]. split; [exact H2|]. split; [exact H3|].
    split; eexists; apply H4; split; vm_compute; reflexivity.
Defined.

Lemma reels_round_trip_witness :
  Forall ascii_only pasted ∧
  ∃ σ' text,
    write_reels ("/w" ++ "/reels.txt") pasted stage_dir_no_audio = (Ok tt, σ') ∧
    read_text ("/w" ++ "/reels.txt") σ' = (Ok text, σ') ∧
    url_lines text = two_reels.
Proof.
  assert (H0 : Forall ascii_only pasted).
  { repeat constructor; vm_compute; lia. }
  split; [exact H0|].
  destruct (reels_round_trip "/w" pasted stage_dir_no_audio H0) as (σ' & text & H1 & H2 & H3).
  - vm_compute. reflexivity.
  - vm_compute. reflexivity.
  - exists σ', text. split; [exact H1|]. split; [exact H2|]. by rewrite H3.
Defined.
